(** * The invocation router of the functions framework (src/router.ts)

    [registerFunctionRoutes] installs the route bindings of a user function on
    an Express application and [executeHandler] runs the request handler,
    bracketing it with the execution-time log.  Both are embedded here as
    functions over an explicit world: the monotonic clock read by
    [process.hrtime], the sequence of observable calls made so far, and the
    promise rejections nobody handled. *)

From Stdlib Require Import ZArith QArith Qpower List String Ascii Bool Lia.
From Stdlib Require Import Floats.SpecFloat.
Import ListNotations.

Local Open Scope string_scope.
Local Open Scope list_scope.
Local Open Scope Z_scope.

(** ** Values exchanged with the transport *)

(** Modelled from the spec: types.ts is not among the sources; the signature
    type is the enumeration of HTTP, EVENT and CLOUD_EVENT. *)
Inductive SignatureType := HTTP | EVENT | CLOUD_EVENT.

Inductive Method := GET | HEAD | POST | PUT | DELETE | PATCH | OPTIONS.

Definition Error := string.

(** [req.headers.host] is a string or [undefined]. *)
Record Request := mkRequest {
  method : Method;
  path : string;
  host : option string
}.

(** The parts of an Express response this file touches: the status code, the
    body once something was sent, [res.locals.functionExecutionFinished], and
    the number of listeners [onFinished] has attached. *)
Record Response := mkResponse {
  statusCode : Z;
  body : option string;
  functionExecutionFinished : bool;
  finishListeners : nat
}.

(** A response as the transport hands it to the first layer. *)
Definition freshResponse : Response := mkResponse 200 None false 0.

(** ** Numbers *)

(** A JavaScript number is an IEEE 754 binary64 value. *)
Definition Number := spec_float.

(** An integer as a number; the integers of this file are far below [2^53]
    and are represented exactly. *)
Definition binary64 (z : Z) : Number := binary_normalize 53 1024 z 0 false.

(** [a / b] on two integers: the quotient rounded to the nearest binary64
    number, ties to even. *)
Definition divide (a b : Z) : Number :=
  SFdiv 53 1024 (binary64 a) (binary64 b).

(** The rational a finite number stands for. *)
Definition binary64Value (f : Number) : option Q :=
  match f with
  | S754_zero _ => Some 0%Q
  | S754_finite s m e =>
      Some (inject_Z (if s then Z.neg m else Z.pos m) * Qpower 2 e)%Q
  | _ => None
  end.

(** ** Observable calls *)

Inductive Event :=
| LogExecutionStarted
| LogExecutionFinished (ms : Number) (status : Z)
| OnFinished
| NextCalled
| Sent (status : Z) (payload : string)
| WrapEventFunction
| WrapCloudEventFunction
| MakeHttpHandler
| HandlerCalled (res : Response).

Record World := mkWorld {
  now : Z;
  trace : list Event;
  unhandledRejections : list Error
}.

(** ** State passing *)

Definition M (A : Type) : Type := World -> A * World.

Definition ret {A} (a : A) : M A := fun w => (a, w).

Definition bind {A B} (c : M A) (k : A -> M B) : M B :=
  fun w => let (a, w') := c w in k a w'.

Notation "x <- c ;; k" := (bind c (fun x => k))
  (at level 61, c at next level, right associativity).
Notation "c ;;; k" := (bind c (fun _ => k))
  (at level 61, right associativity).

Definition emit (e : Event) : M unit :=
  fun w => (tt, mkWorld (now w) (trace w ++ [e]) (unhandledRejections w)).

Definition sleep (ns : N) : M unit :=
  fun w => (tt, mkWorld (now w + Z.of_N ns) (trace w) (unhandledRejections w)).

Definition readClock : M Z := fun w => (now w, w).

(** ** The high-resolution timer of the runtime *)

Module Hrtime.

Definition NS_PER_SEC : Z := 1000000000.

(** [process.hrtime()] : the clock as [seconds, nanoseconds]. *)
Definition hrtime : M (Z * Z) :=
  t <- readClock ;;
  ret (t / NS_PER_SEC, t mod NS_PER_SEC).

(** [process.hrtime(time)] : the difference to an earlier reading, the
    nanoseconds borrowed from the seconds when they would be negative. *)
Definition hrtimeSince (time : Z * Z) : M (Z * Z) :=
  t <- readClock ;;
  let sec := t / NS_PER_SEC - fst time in
  let nsec := t mod NS_PER_SEC - snd time in
  if nsec <? 0 then ret (sec - 1, nsec + NS_PER_SEC) else ret (sec, nsec).

End Hrtime.

(** ** Handlers *)

(** How an invoked handler comes back to an [await]. *)
Inductive Outcome :=
| Fulfilled
| Rejected (e : Error)
| Pending.

(** What one invocation of a request handler does: how it settles, the state it
    leaves the response in, the time that passes between the two timer
    readings around it, and whether it called the continuation it was given. *)
Record Settlement := mkSettlement {
  outcome : Outcome;
  resAfter : Response;
  elapsed : N;
  calledNext : option (option Error)
}.

Definition RequestHandler := Request -> Response -> Settlement.

(** The state of the promise an async function returns. *)
Inductive Promise :=
| Resolved
| RejectedWith (e : Error)
| Unsettled.

(** ** logger.ts, as seen from the router *)

(** Modelled from the spec: logger.ts is not among the sources; the call takes
    no argument, is made synchronously and does not throw. *)
Definition logExecutionStarted : M unit := emit LogExecutionStarted.

(** Modelled from the spec: logger.ts is not among the sources; the call takes
    the elapsed milliseconds and the status code, is made synchronously and
    does not throw. *)
Definition logExecutionFinished (ms : Number) (status : Z) : M unit :=
  emit (LogExecutionFinished ms status).

(** ** router.ts: executeHandler *)

Definition SHOULD_LOG_EXECUTION_TIME (req : Request) : bool :=
  match host req with
  | Some h => negb (String.eqb h "cloudfunctions.net")
  | None => true
  end.

(** [await handler(req, res, next)] and the statements after it: the call is
    observed and the time until the handler settles passes; the rest of the
    async function runs when the handler has fulfilled, a rejection or a
    throw of the handler rejects the function's promise, and nothing follows
    a handler that never settles.  The settlement is handed back with the
    promise for the effects the handler had on the response and on [next]. *)
Definition await (handler : RequestHandler) (req : Request) (res : Response)
    (rest : Settlement -> M Promise) : M (Promise * Settlement) :=
  emit (HandlerCalled res) ;;;
  let s := handler req res in
  sleep (elapsed s) ;;;
  match outcome s with
  | Fulfilled => p <- rest s ;; ret (p, s)
  | Rejected e => ret (RejectedWith e, s)
  | Pending => ret (Unsettled, s)
  end.

Definition executeHandler (handler : RequestHandler) (req : Request)
    (res : Response) : M (Promise * Settlement) :=
  if SHOULD_LOG_EXECUTION_TIME req then
    hrstart <- Hrtime.hrtime ;;
    logExecutionStarted ;;;
    await handler req res (fun s =>
    hrend <- Hrtime.hrtimeSince hrstart ;;
    logExecutionFinished (divide (snd hrend) 1000000)
                         (statusCode (resAfter s)) ;;;
    ret Resolved)
  else
    await handler req res (fun _ =>
    ret Resolved).

(** ** The transport: an Express application as its stack of layers *)

Module Express.

Inductive Verb := use | all | post.

(** What a layer's callback does with the control it was given. *)
Inductive Control :=
| Ended
| Next (err : option Error)
| Threw (e : Error).

Definition Callback := Request -> Response -> M (Response * Control).

Record Layer := mkLayer {
  verb : Verb;
  route : string;
  handle : Callback
}.

Definition Application := list Layer.

(** [app.use], [app.all] and [app.post] push a layer on the stack. *)
Definition register (v : Verb) (app : Application) (pattern : string)
    (cb : Callback) : Application :=
  app ++ [mkLayer v pattern cb].

Definition isPOST (m : Method) : bool :=
  match m with POST => true | _ => false end.

Definition methodMatches (v : Verb) (m : Method) : bool :=
  match v with
  | use | all => true
  | post => isPOST m
  end.

(** How the transport matches the pattern of a layer against the path of a
    request is its own affair (letter case, separators, the characters after
    a mount point): it is a parameter.  The router is written for two facts
    about it: the pattern of the ignored paths takes these two paths, and a
    path that the catch-all route takes is also taken by the mount point of
    the same pattern. *)
Class Matching := {
  pathMatches : Verb -> string -> string -> bool;
  ignored_paths_match :
    forall p, p = "/favicon.ico" \/ p = "/robots.txt" ->
      pathMatches use "/favicon.ico|/robots.txt" p = true;
  catch_all_mounts :
    forall p, pathMatches all "/*" p = true -> pathMatches use "/*" p = true
}.

Section Dispatch.

Context {T : Matching}.

Definition layerMatches (l : Layer) (req : Request) : bool :=
  methodMatches (verb l) (method req)
  && pathMatches (verb l) (route l) (path req).

(** Where the transport leaves a request after the stack. *)
Inductive Final :=
| Stopped
| FellThrough
| ErrorHandling (e : Error).

(** First registered, first tried; a layer that calls [next()] hands over to
    the layers after it, [next(err)] and a synchronous throw go to the
    transport's error handling. *)
Fixpoint handleRequest (stack : Application) (req : Request) (res : Response)
    : M (Response * Final) :=
  match stack with
  | [] => ret (res, FellThrough)
  | l :: rest =>
      if layerMatches l req then
        r <- handle l req res ;;
        match snd r with
        | Ended => ret (fst r, Stopped)
        | Next None => handleRequest rest req (fst r)
        | Next (Some e) => ret (fst r, ErrorHandling e)
        | Threw e => ret (fst r, ErrorHandling e)
        end
      else handleRequest rest req res
  end.

End Dispatch.

(** [res.status(code)] *)
Definition status (code : Z) (res : Response) : Response :=
  mkResponse code (body res) (functionExecutionFinished res)
             (finishListeners res).

(** [res.send(chunk)]; [null] is sent as the empty body. *)
Definition send (chunk : option string) (res : Response) : M Response :=
  let payload := match chunk with Some s => s | None => EmptyString end in
  emit (Sent (statusCode res) payload) ;;;
  ret (mkResponse (statusCode res) (Some payload)
                  (functionExecutionFinished res) (finishListeners res)).

End Express.

(** ** on-finished *)

(** [onFinished(res, listener)] attaches the listener to the response. *)
Definition onFinished (res : Response) : M Response :=
  emit OnFinished ;;;
  ret (mkResponse (statusCode res) (body res) (functionExecutionFinished res)
                  (S (finishListeners res))).

(** The listener of the router, run by the transport for each attachment when
    the response has finished. *)
Definition responseFinished (res : Response) : Response :=
  match finishListeners res with
  | O => res
  | S _ => mkResponse (statusCode res) (body res) true (finishListeners res)
  end.

(** ** router.ts: registerFunctionRoutes *)

Module Router.
Import Express.

Section Routes.

(** functions.ts and invoker.ts are not among the sources: the type of user
    functions and the three functions that build handlers are parameters. *)
Variable HandlerFunction : Type.
Variable makeHttpHandler : HandlerFunction -> RequestHandler.
Variable wrapEventFunction : HandlerFunction -> HandlerFunction.
Variable wrapCloudEventFunction : HandlerFunction -> HandlerFunction.

Context {T : Matching}.

(** A call that builds a value is observed as it is made. *)
Definition construct {A} (e : Event) (a : A) : M A := emit e ;;; ret a.

(** A promise that is neither awaited nor returned: a rejection of it stays
    unhandled. *)
Definition floating (p : Promise) : M unit :=
  match p with
  | RejectedWith e =>
      fun w => (tt, mkWorld (now w) (trace w) (unhandledRejections w ++ [e]))
  | _ => ret tt
  end.

(** [executeHandler(handler, req, res, next);] as a statement of a route
    callback. *)
Definition runDetached (handler : RequestHandler) : Callback :=
  fun req res =>
    r <- executeHandler handler req res ;;
    floating (fst r) ;;;
    ret (resAfter (snd r),
         match calledNext (snd r) with
         | Some err => Next err
         | None => Ended
         end).

Definition registerFunctionRoutes (app : Application)
    (userFunction : HandlerFunction) (functionSignatureType : SignatureType)
    : Application :=
  match functionSignatureType with
  | HTTP =>
      let app := register use app "/favicon.ico|/robots.txt" (fun req res =>
        res <- send None (status 404 res) ;;
        ret (res, Ended)) in
      let app := register use app "/*" (fun req res =>
        res <- onFinished res ;;
        emit NextCalled ;;;
        ret (res, Next None)) in
      register all app "/*" (fun req res =>
        handler <- construct MakeHttpHandler (makeHttpHandler userFunction) ;;
        runDetached handler req res)
  | EVENT =>
      register post app "/*" (fun req res =>
        wrappedUserFunction <-
          construct WrapEventFunction (wrapEventFunction userFunction) ;;
        handler <-
          construct MakeHttpHandler (makeHttpHandler wrappedUserFunction) ;;
        runDetached handler req res)
  | CLOUD_EVENT =>
      register post app "/*" (fun req res =>
        wrappedUserFunction <-
          construct WrapCloudEventFunction
                    (wrapCloudEventFunction userFunction) ;;
        handler <-
          construct MakeHttpHandler (makeHttpHandler wrappedUserFunction) ;;
        runDetached handler req res)
  end.

(** The handler a request of this signature type is run with. *)
Definition normalizedHandler (userFunction : HandlerFunction)
    (functionSignatureType : SignatureType) : RequestHandler :=
  match functionSignatureType with
  | HTTP => makeHttpHandler userFunction
  | EVENT => makeHttpHandler (wrapEventFunction userFunction)
  | CLOUD_EVENT => makeHttpHandler (wrapCloudEventFunction userFunction)
  end.

(** Requests served one after the other by one application. *)
Fixpoint serve (app : Application) (reqs : list Request)
    : M (list (Response * Final)) :=
  match reqs with
  | [] => ret []
  | req :: rest =>
      r <- handleRequest app req freshResponse ;;
      rs <- serve app rest ;;
      ret (r :: rs)
  end.

End Routes.
End Router.

(** ** Reading a trace *)

(** The calls an action adds to the trace of the world it starts in. *)
Definition eventsOf {A} (c : M A) (w : World) : list Event :=
  skipn (List.length (trace w)) (trace (snd (c w))).

Definition isStarted (e : Event) : bool :=
  match e with LogExecutionStarted => true | _ => false end.

Definition isFinished (e : Event) : bool :=
  match e with LogExecutionFinished _ _ => true | _ => false end.

Definition isTimingLog (e : Event) : bool := isStarted e || isFinished e.

Definition isHandlerCalled (e : Event) : bool :=
  match e with HandlerCalled _ => true | _ => false end.

Definition isConstruction (e : Event) : bool :=
  match e with MakeHttpHandler => true | _ => false end.

Definition count (p : Event -> bool) (t : list Event) : nat :=
  List.length (filter p t).

(** The arguments of the calls of [logExecutionFinished], in order. *)
Fixpoint finishedCalls (t : list Event) : list (Number * Z) :=
  match t with
  | [] => []
  | LogExecutionFinished ms st :: t' => (ms, st) :: finishedCalls t'
  | _ :: t' => finishedCalls t'
  end.

(** A millisecond value that is a whole number. *)
Definition whole (x : Number) : Prop :=
  exists q k, binary64Value x = Some q /\ q == inject_Z k.

(** ** Specification vocabulary *)

Definition settled (o : Outcome) : Promise :=
  match o with
  | Fulfilled => Resolved
  | Rejected e => RejectedWith e
  | Pending => Unsettled
  end.

(** The calls of one run, in order, as a function of the handler's
    settlement. *)
Definition executorEvents (handler : RequestHandler) (req : Request)
    (res : Response) : list Event :=
  let s := handler req res in
  if SHOULD_LOG_EXECUTION_TIME req then
    [LogExecutionStarted; HandlerCalled res] ++
    match outcome s with
    | Fulfilled =>
        [LogExecutionFinished
           (divide (Z.of_N (elapsed s) mod Hrtime.NS_PER_SEC) 1000000)
           (statusCode (resAfter s))]
    | _ => []
    end
  else [HandlerCalled res].

(** Whether a request gets as far as the user function's handler on an
    application that holds the routes of one signature type only. *)
Definition reachesHandler {T : Express.Matching}
    (functionSignatureType : SignatureType) (req : Request) : bool :=
  match functionSignatureType with
  | HTTP =>
      negb (Express.pathMatches Express.use "/favicon.ico|/robots.txt"
              (path req))
      && Express.pathMatches Express.all "/*" (path req)
  | _ =>
      Express.isPOST (method req)
      && Express.pathMatches Express.post "/*" (path req)
  end.

(** The rejection a discarded promise leaves behind. *)
Definition rejections (o : Outcome) : list Error :=
  match o with
  | Rejected e => [e]
  | _ => []
  end.

(** Where the transport leaves a request whose last layer ran the handler. *)
Definition finalOf (nxt : option (option Error)) : Express.Final :=
  match nxt with
  | None => Express.Stopped
  | Some None => Express.FellThrough
  | Some (Some e) => Express.ErrorHandling e
  end.

(** The calls a route makes before it hands over to [executeHandler]. *)
Definition preamble (functionSignatureType : SignatureType) : list Event :=
  match functionSignatureType with
  | HTTP => [OnFinished; NextCalled; MakeHttpHandler]
  | EVENT => [WrapEventFunction; MakeHttpHandler]
  | CLOUD_EVENT => [WrapCloudEventFunction; MakeHttpHandler]
  end.

(** The response as the handler receives it. *)
Definition tracked (functionSignatureType : SignatureType) (res : Response)
    : Response :=
  match functionSignatureType with
  | HTTP =>
      mkResponse (statusCode res) (body res) (functionExecutionFinished res)
                 (S (finishListeners res))
  | _ => res
  end.

(** The calls one request adds to the trace on such an application. *)
Definition routeEvents {T : Express.Matching}
    (functionSignatureType : SignatureType)
    (handler : RequestHandler) (req : Request) (res : Response)
    : list Event :=
  if reachesHandler functionSignatureType req then
    preamble functionSignatureType
    ++ executorEvents handler req (tracked functionSignatureType res)
  else
    match functionSignatureType with
    | HTTP =>
        if Express.pathMatches Express.use "/favicon.ico|/robots.txt"
             (path req)
        then [Sent 404 EmptyString]
        else if Express.pathMatches Express.use "/*" (path req)
        then [OnFinished; NextCalled]
        else []
    | _ => []
    end.

Definition isOnFinished (e : Event) : bool :=
  match e with OnFinished => true | _ => false end.

Definition fulfils (o : Outcome) : bool :=
  match o with Fulfilled => true | _ => false end.

(** The requests of a sequence whose run is timed, and those of them whose
    handler fulfils, each request starting on a fresh response. *)
Definition timedRequest {T : Express.Matching} (t : SignatureType)
    (req : Request) : bool :=
  reachesHandler t req && SHOULD_LOG_EXECUTION_TIME req.

Definition timedAndFulfilled {T : Express.Matching} (t : SignatureType)
    (handler : RequestHandler) (req : Request) : bool :=
  timedRequest t req
  && fulfils (outcome (handler req (tracked t freshResponse))).

(** The rejections a sequence of requests leaves behind, in order. *)
Definition rejectionsOf {T : Express.Matching} (t : SignatureType)
    (handler : RequestHandler) (reqs : list Request) : list Error :=
  List.concat
    (map (fun req =>
            if reachesHandler t req
            then rejections (outcome (handler req (tracked t freshResponse)))
            else [])
         reqs).

(** ** Rounding, for the proofs *)

(** The second half of [binary_round_aux]. *)
Definition finishRound (m : Z) (e : Z) : spec_float :=
  let '(mrs, e') := shr_fexp 53 1024 m e loc_Exact in
  match shr_m mrs with
  | Z0 => S754_zero false
  | Zpos m' =>
      if e' <=? 1024 - 53 then S754_finite false m' e' else S754_infinity false
  | Zneg _ => S754_nan
  end.

(** The mantissa of 1,000,000 as a binary64 number. *)
Definition million64 : positive := 8589934592000000.

(** ** Sample inputs *)

Module Samples.

Definition world0 : World := mkWorld 0 [] [].

Definition lower (c : ascii) : ascii :=
  let n := nat_of_ascii c in
  if (65 <=? n)%nat && (n <=? 90)%nat then ascii_of_nat (n + 32) else c.

Fixpoint lowercase (s : string) : string :=
  match s with
  | EmptyString => EmptyString
  | String c rest => String (lower c) (lowercase rest)
  end.

(** A path that starts with a mount point, whatever the letter case, and
    goes on with nothing, a slash or, where allowed, a dot. *)
Definition mounted (point p : string) (dot : bool) : bool :=
  String.prefix point (lowercase p)
  && match String.get (String.length point) p with
     | None => true
     | Some c => Ascii.eqb c "/" || (dot && Ascii.eqb c ".")
     end.

(** A transport for the examples, after Express 4 on the router's two
    patterns; any other pattern takes the path that spells it. *)
Definition takes (v : Express.Verb) (pattern p : string) : bool :=
  if String.eqb pattern "/*" then String.prefix "/" p
  else if String.eqb pattern "/favicon.ico|/robots.txt"
  then mounted "/favicon.ico" p true || mounted "/robots.txt" p false
  else String.eqb (lowercase pattern) (lowercase p).

Definition matching : Express.Matching.
Proof.
  refine {| Express.pathMatches := takes |}.
  - intros p [->| ->]; reflexivity.
  - intros p H. exact H.
Defined.

(** Settles after one and a half milliseconds. *)
Definition halfway : RequestHandler :=
  fun _ res => mkSettlement Fulfilled (Express.status 201 res) 1500000 None.

(** Settles after two seconds and 500.5 milliseconds. *)
Definition lengthy : RequestHandler :=
  fun _ res => mkSettlement Fulfilled (Express.status 201 res) 2500500000 None.

Definition failing : RequestHandler :=
  fun _ res => mkSettlement (Rejected "boom") res 1000 None.

Definition getRoot : Request := mkRequest GET "/" (Some "localhost:8080").

Definition postRoot : Request := mkRequest POST "/" None.

(** The routes of a user function that already is a request handler, the
    three functions of invoker.ts passing it on unchanged. *)
Definition routes (userFunction : RequestHandler) (t : SignatureType)
    : Express.Application :=
  Router.registerFunctionRoutes RequestHandler (fun f => f) (fun f => f)
    (fun f => f) [] userFunction t.

(** Never settles. *)
Definition hanging : RequestHandler :=
  fun _ res => mkSettlement Pending res 0 None.

(** Answers nothing and calls [next()]. *)
Definition forwarding : RequestHandler :=
  fun _ res => mkSettlement Fulfilled res 10 (Some None).

(** A layer of the application's own, registered before the router's. *)
Definition hook : Express.Layer :=
  Express.mkLayer Express.post "/hook" (fun _ res => ret (res, Express.Ended)).

End Samples.

(** ** Proof automation *)

(** Runs the state-passing code of the executor one layer down. *)
Ltac step_monad :=
  cbv beta iota zeta delta
    [bind ret emit sleep readClock logExecutionStarted logExecutionFinished
     await Hrtime.hrtime].

(** The same for the callbacks of the routes. *)
Ltac step_route :=
  cbv beta iota zeta delta
    [bind ret emit Router.construct onFinished Express.send Express.status
     fst snd now trace unhandledRejections statusCode body
     functionExecutionFinished finishListeners].

(** Enters the stack of the registered routes. *)
Ltac enter_routes :=
  unfold Router.registerFunctionRoutes, Express.register; cbn [List.app];
  cbn [Express.handleRequest]; unfold Express.layerMatches;
  cbn [Express.verb Express.route Express.handle Express.methodMatches andb].

(** * Properties *)

(** ** The timer *)

Lemma skipn_length_app {A} (l l' : list A) :
  skipn (List.length l) (l ++ l') = l'.
Proof.
  induction l as [|a l IH]; simpl; [reflexivity | exact IH].
Qed.

Lemma hrtimeSince_elapsed (t0 : Z) (d : N) (w : World) :
  now w = t0 + Z.of_N d ->
  Hrtime.hrtimeSince (t0 / Hrtime.NS_PER_SEC, t0 mod Hrtime.NS_PER_SEC) w
  = ((Z.of_N d / Hrtime.NS_PER_SEC, Z.of_N d mod Hrtime.NS_PER_SEC), w).
Proof.
  intros Hnow.
  unfold Hrtime.hrtimeSince, bind, readClock, ret; simpl.
  rewrite Hnow.
  set (n := Hrtime.NS_PER_SEC).
  assert (Hn : 0 < n) by (unfold n, Hrtime.NS_PER_SEC; lia).
  pose proof (Z.div_mod (t0 + Z.of_N d) n ltac:(lia)) as E1.
  pose proof (Z.div_mod t0 n ltac:(lia)) as E0.
  pose proof (Z.mod_pos_bound (t0 + Z.of_N d) n Hn) as B1.
  pose proof (Z.mod_pos_bound t0 n Hn) as B0.
  set (q1 := (t0 + Z.of_N d) / n) in *.
  set (r1 := (t0 + Z.of_N d) mod n) in *.
  set (q0 := t0 / n) in *.
  set (r0 := t0 mod n) in *.
  destruct (r1 - r0 <? 0) eqn:Hborrow.
  - apply Z.ltb_lt in Hborrow.
    assert (Hd : Z.of_N d = n * (q1 - q0 - 1) + (r1 - r0 + n)) by lia.
    f_equal. f_equal.
    + apply (Z.div_unique_pos _ _ _ (r1 - r0 + n)); lia.
    + apply (Z.mod_unique_pos _ _ (q1 - q0 - 1)); lia.
  - apply Z.ltb_ge in Hborrow.
    assert (Hd : Z.of_N d = n * (q1 - q0) + (r1 - r0)) by lia.
    f_equal. f_equal.
    + apply (Z.div_unique_pos _ _ _ (r1 - r0)); lia.
    + apply (Z.mod_unique_pos _ _ (q1 - q0)); lia.
Qed.

(** ** What one run of [executeHandler] does *)

Section Executor.

Variable handler : RequestHandler.
Variables (req : Request) (res : Response) (w : World).

Let s := handler req res.
Let d := Z.of_N (elapsed s).

Lemma executeHandler_timed_fulfilled :
  SHOULD_LOG_EXECUTION_TIME req = true ->
  outcome s = Fulfilled ->
  executeHandler handler req res w
  = ((Resolved, s),
     mkWorld (now w + d)
       (trace w ++
        [LogExecutionStarted; HandlerCalled res;
         LogExecutionFinished
           (divide (d mod Hrtime.NS_PER_SEC) 1000000)
           (statusCode (resAfter s))])
       (unhandledRejections w)).
Proof.
  intros Hlog Hok.
  unfold executeHandler. rewrite Hlog. step_monad. fold s. rewrite Hok.
  rewrite (hrtimeSince_elapsed (now w) (elapsed s)) by reflexivity.
  simpl. fold d. rewrite <- !app_assoc. reflexivity.
Qed.

Lemma executeHandler_timed_unfulfilled :
  SHOULD_LOG_EXECUTION_TIME req = true ->
  outcome s <> Fulfilled ->
  executeHandler handler req res w
  = ((settled (outcome s), s),
     mkWorld (now w + d)
       (trace w ++ [LogExecutionStarted; HandlerCalled res])
       (unhandledRejections w)).
Proof.
  intros Hlog Hko.
  unfold executeHandler. rewrite Hlog. step_monad. fold s.
  destruct (outcome s) eqn:Ho; [congruence | |];
    simpl; fold d; rewrite <- !app_assoc; reflexivity.
Qed.

Lemma executeHandler_untimed :
  SHOULD_LOG_EXECUTION_TIME req = false ->
  executeHandler handler req res w
  = ((settled (outcome s), s),
     mkWorld (now w + d) (trace w ++ [HandlerCalled res])
       (unhandledRejections w)).
Proof.
  intros Hlog.
  unfold executeHandler. rewrite Hlog. step_monad. fold s.
  destruct (outcome s); reflexivity.
Qed.

Lemma executeHandler_run :
  executeHandler handler req res w
  = ((settled (outcome s), s),
     mkWorld (now w + d) (trace w ++ executorEvents handler req res)
       (unhandledRejections w)).
Proof.
  unfold executorEvents. fold s.
  destruct (SHOULD_LOG_EXECUTION_TIME req) eqn:Hlog.
  - destruct (outcome s) eqn:Ho.
    + rewrite executeHandler_timed_fulfilled by assumption. reflexivity.
    + rewrite executeHandler_timed_unfulfilled by (fold s; congruence).
      fold s. rewrite Ho. rewrite app_nil_r. reflexivity.
    + rewrite executeHandler_timed_unfulfilled by (fold s; congruence).
      fold s. rewrite Ho. rewrite app_nil_r. reflexivity.
  - apply executeHandler_untimed. assumption.
Qed.

Lemma executeHandler_events :
  eventsOf (executeHandler handler req res) w
  = executorEvents handler req res.
Proof.
  unfold eventsOf. rewrite executeHandler_run. simpl.
  apply skipn_length_app.
Qed.

End Executor.

(** ** Binary64 division by a million *)

Lemma digits2_size (p : positive) : digits2_pos p = Pos.size p.
Proof. induction p; simpl; congruence. Qed.

Lemma digits2_bounds (p : positive) :
  2 ^ (Z.pos (digits2_pos p) - 1) <= Z.pos p < 2 ^ Z.pos (digits2_pos p).
Proof.
  rewrite digits2_size.
  pose proof (Pos.size_gt p) as Hgt. pose proof (Pos.size_le p) as Hle.
  apply Pos2Z.pos_lt_pos in Hgt. apply Pos2Z.pos_le_pos in Hle.
  rewrite Pos2Z.inj_pow in Hgt, Hle.
  change (Z.pos p~0) with (2 * Z.pos p) in Hle.
  split; [|exact Hgt].
  assert (E : 2 ^ Z.pos (Pos.size p) = 2 * 2 ^ (Z.pos (Pos.size p) - 1)).
  { rewrite <- Z.pow_succ_r by lia. f_equal. lia. }
  lia.
Qed.

Lemma digits2_unique (p : positive) (k : Z) :
  2 ^ (k - 1) <= Z.pos p < 2 ^ k -> Z.pos (digits2_pos p) = k.
Proof.
  intros [Hlo Hhi]. pose proof (digits2_bounds p) as [Dlo Dhi].
  set (d := Z.pos (digits2_pos p)) in *.
  assert (Hd : 0 < d) by (unfold d; lia).
  destruct (Z.lt_trichotomy d k) as [Hlt | [Heq | Hgt]]; [|exact Heq|].
  - assert (2 ^ d <= 2 ^ (k - 1)) by (apply Z.pow_le_mono_r; lia). lia.
  - assert (k <= 0 \/ 0 < k) as [Hk|Hk] by lia.
    + assert (2 ^ k <= 1).
      { destruct (Z.eq_dec k 0) as [->|]; [simpl; lia|].
        rewrite Z.pow_neg_r by lia. lia. }
      lia.
    + assert (2 ^ k <= 2 ^ (d - 1)) by (apply Z.pow_le_mono_r; lia). lia.
Qed.

Lemma iter_xO_value (p d : positive) :
  Z.pos (Pos.iter xO p d) = Z.pos p * 2 ^ Z.pos d.
Proof.
  induction d as [|d IH] using Pos.peano_ind.
  - simpl. lia.
  - rewrite Pos.iter_succ, Pos2Z.inj_xO, IH, Pos2Z.inj_succ, Z.pow_succ_r by lia.
    lia.
Qed.

Lemma fexp64_normal (e : Z) : -1021 <= e -> fexp 53 1024 e = e - 53.
Proof. intros He. unfold fexp, emin. lia. Qed.

Lemma shr_fexp_53 (p : positive) (e : Z) (l : location) :
  Z.pos (digits2_pos p) = 53 -> -1074 <= e ->
  shr_fexp 53 1024 (Z.pos p) e l = (shr_record_of_loc (Z.pos p) l, e).
Proof.
  intros Hd He. unfold shr_fexp, Zdigits2. rewrite Hd.
  rewrite fexp64_normal by lia.
  replace (53 + e - 53 - e) with 0 by lia. reflexivity.
Qed.

Lemma shr_fexp_54 (p : positive) (e : Z) (l : location) :
  Z.pos (digits2_pos p) = 54 -> -1075 <= e ->
  shr_fexp 53 1024 (Z.pos p) e l
  = (shr_1 (shr_record_of_loc (Z.pos p) l), e + 1).
Proof.
  intros Hd He. unfold shr_fexp, Zdigits2. rewrite Hd.
  rewrite fexp64_normal by lia.
  replace (54 + e - 53 - e) with 1 by lia. reflexivity.
Qed.

Lemma shr_m_of_loc (m : Z) (l : location) :
  shr_m (shr_record_of_loc m l) = m.
Proof. destruct l as [|[]]; reflexivity. Qed.

Lemma loc_of_loc (m : Z) (l : location) :
  loc_of_shr_record (shr_record_of_loc m l) = l.
Proof. destruct l as [|[]]; reflexivity. Qed.

Lemma round_nearest_even_near (m : Z) (l : location) :
  m <= round_nearest_even m l <= m + 1.
Proof.
  destruct l as [|[]]; simpl; try lia. destruct (Z.even m); lia.
Qed.

Lemma shr_1_halves (p : positive) (l : location) :
  shr_m (shr_1 (shr_record_of_loc (Z.pos p) l)) = Z.div2 (Z.pos p).
Proof. destruct l as [|[]], p; reflexivity. Qed.

Lemma shr_1_exact (p : positive) :
  Z.even (Z.pos p) = true ->
  loc_of_shr_record (shr_1 (shr_record_of_loc (Z.pos p) loc_Exact))
  = loc_Exact.
Proof. destruct p; simpl; intros H; try discriminate H; reflexivity. Qed.

Lemma binary_round_aux_finish (m e : Z) (l : location) :
  binary_round_aux 53 1024 false m e l
  = finishRound
      (round_nearest_even (shr_m (fst (shr_fexp 53 1024 m e l)))
         (loc_of_shr_record (fst (shr_fexp 53 1024 m e l))))
      (snd (shr_fexp 53 1024 m e l)).
Proof.
  unfold binary_round_aux, finishRound.
  destruct (shr_fexp 53 1024 m e l) as [mrs e1]. reflexivity.
Qed.

Lemma finishRound_normal (m2 e : Z) :
  2 ^ 52 <= m2 <= 2 ^ 53 -> -1074 <= e <= 970 ->
  exists m k,
    finishRound m2 e = S754_finite false m (e + k)
    /\ (k = 0 \/ k = 1) /\ Z.pos m * 2 ^ k = m2.
Proof.
  intros Hm He. destruct m2 as [|p|p]; try lia.
  destruct (Z.eq_dec (Z.pos p) (2 ^ 53)) as [E|NE].
  - injection E as ->. exists (4503599627370496%positive), 1.
    unfold finishRound. rewrite shr_fexp_54 by (reflexivity || lia).
    cbn [shr_m shr_1 shr_record_of_loc].
    assert (Hle : (e + 1 <=? 1024 - 53) = true) by (apply Z.leb_le; lia).
    rewrite Hle. split; [reflexivity|]. split; [right; reflexivity|reflexivity].
  - exists p, 0. unfold finishRound.
    rewrite shr_fexp_53 by (try apply digits2_unique; lia).
    cbn [shr_m shr_record_of_loc].
    assert (Hle : (e <=? 1024 - 53) = true) by (apply Z.leb_le; lia).
    rewrite Hle, Z.add_0_r. split; [reflexivity|]. split; [left; reflexivity|lia].
Qed.

Lemma round_near (p : positive) (ex : Z) (lx : location) :
  2 ^ 52 <= Z.pos p < 2 ^ 54 -> -1074 <= ex <= 969 ->
  exists m k,
    binary_round_aux 53 1024 false (Z.pos p) ex lx = S754_finite false m (ex + k)
    /\ 0 <= k <= 2
    /\ Z.pos p - 1 <= Z.pos m * 2 ^ k <= Z.pos p + 2
    /\ (lx = loc_Exact -> Z.even (Z.pos p) = true -> Z.pos m * 2 ^ k = Z.pos p).
Proof.
  intros Hp He. rewrite binary_round_aux_finish.
  destruct (Z_lt_le_dec (Z.pos p) (2 ^ 53)) as [Hlt|Hge].
  - rewrite shr_fexp_53 by (try apply digits2_unique; lia).
    cbn [fst snd]. rewrite shr_m_of_loc, loc_of_loc.
    pose proof (round_nearest_even_near (Z.pos p) lx) as Hr.
    destruct (finishRound_normal (round_nearest_even (Z.pos p) lx) ex)
      as (m & k & -> & Hk & Hv); [lia | lia |].
    exists m, k. split; [reflexivity|]. split; [lia|]. split; [lia|].
    intros -> _. exact Hv.
  - rewrite shr_fexp_54 by (try apply digits2_unique; lia).
    cbn [fst snd]. rewrite shr_1_halves.
    set (l1 := loc_of_shr_record _).
    pose proof (round_nearest_even_near (Z.div2 (Z.pos p)) l1) as Hr.
    pose proof (Z.div2_odd (Z.pos p)) as Hodd.
    assert (Hb : 0 <= Z.b2z (Z.odd (Z.pos p)) <= 1)
      by (destruct (Z.odd (Z.pos p)); simpl; lia).
    destruct (finishRound_normal (round_nearest_even (Z.div2 (Z.pos p)) l1)
                (ex + 1)) as (m & k & -> & Hk & Hv); [lia | lia |].
    exists m, (1 + k). split; [f_equal; lia|]. split; [lia|].
    rewrite Z.pow_add_r by lia. change (2 ^ 1) with 2.
    split; [lia|].
    intros -> Hev. subst l1. rewrite shr_1_exact in Hv by exact Hev.
    cbn [round_nearest_even] in Hv.
    rewrite <- Z.negb_even, Hev in Hodd. cbn [negb Z.b2z] in Hodd. lia.
Qed.

Lemma round_exact_53 (p : positive) (ex : Z) :
  Z.pos (digits2_pos p) = 53 -> -1074 <= ex <= 971 ->
  binary_round_aux 53 1024 false (Z.pos p) ex loc_Exact
  = S754_finite false p ex.
Proof.
  intros Hd He. unfold binary_round_aux.
  rewrite shr_fexp_53 by (assumption || lia).
  cbn [shr_m shr_record_of_loc loc_of_shr_record round_nearest_even].
  rewrite shr_fexp_53 by (assumption || lia).
  cbn [shr_m shr_record_of_loc].
  assert (Hle : (ex <=? 1024 - 53) = true) by (apply Z.leb_le; lia).
  rewrite Hle. reflexivity.
Qed.

(** An integer below [2^52] is a binary64 number as it is: the mantissa is the
    integer shifted to 53 bits. *)
Lemma binary64_small (p : positive) :
  Z.pos p < 2 ^ 52 ->
  exists mx L,
    binary64 (Z.pos p) = S754_finite false mx (L - 53)
    /\ 1 <= L <= 52
    /\ 2 ^ (L - 1) <= Z.pos p < 2 ^ L
    /\ Z.pos mx = Z.pos p * 2 ^ (53 - L)
    /\ Z.pos (digits2_pos mx) = 53.
Proof.
  intros Hp. pose proof (digits2_bounds p) as HL.
  set (L := Z.pos (digits2_pos p)) in *.
  assert (HL52 : 1 <= L <= 52).
  { split; [unfold L; lia|].
    destruct (Z_le_gt_dec L 52) as [|Hgt]; [assumption|].
    assert (2 ^ 52 <= 2 ^ (L - 1)) by (apply Z.pow_le_mono_r; lia). lia. }
  assert (Hd : (digits2_pos p < 53)%positive) by (unfold L in HL52; lia).
  exists (Pos.iter xO p (53 - digits2_pos p)), L.
  assert (Hmx : Z.pos (Pos.iter xO p (53 - digits2_pos p))
                = Z.pos p * 2 ^ (53 - L)).
  { rewrite iter_xO_value. f_equal. f_equal. unfold L. lia. }
  assert (Hdig : Z.pos (digits2_pos (Pos.iter xO p (53 - digits2_pos p))) = 53).
  { apply digits2_unique. rewrite Hmx.
    assert (E1 : 2 ^ (53 - 1) = 2 ^ (L - 1) * 2 ^ (53 - L))
      by (rewrite <- Z.pow_add_r by lia; f_equal; lia).
    assert (E2 : 2 ^ 53 = 2 ^ L * 2 ^ (53 - L))
      by (rewrite <- Z.pow_add_r by lia; f_equal; lia).
    assert (0 < 2 ^ (53 - L)) by (apply Z.pow_pos_nonneg; lia).
    rewrite E1, E2.
    split; [apply Z.mul_le_mono_nonneg_r | apply Z.mul_lt_mono_pos_r]; lia. }
  split; [|repeat split; try lia; exact Hmx || exact Hdig].
  unfold binary64, binary_normalize, binary_round, shl_align.
  rewrite Z.add_0_r, fexp64_normal by (fold L; lia).
  fold L.
  replace (L - 53) with (Z.neg (53 - digits2_pos p)) by (unfold L; lia).
  cbn [Z.sub Z.opp Z.add].
  replace (Z.neg (53 - digits2_pos p)) with (L - 53) by (unfold L; lia).
  apply round_exact_53; [exact Hdig | lia].
Qed.

Lemma binary64_million : binary64 1000000 = S754_finite false million64 (-33).
Proof. vm_compute. reflexivity. Qed.

Lemma div_core_million (mx : positive) (ex : Z) :
  Z.pos (digits2_pos mx) = 53 -> -60 <= ex <= 0 ->
  SFdiv_core_binary 53 1024 (Z.pos mx) ex (Z.pos million64) (-33)
  = (Z.pos mx * 2 ^ 53 / Z.pos million64, ex - 20,
     new_location (Z.pos million64) ((Z.pos mx * 2 ^ 53) mod Z.pos million64)).
Proof.
  intros Hd He. unfold SFdiv_core_binary. cbv zeta. unfold Zdigits2.
  rewrite Hd. change (Z.pos (digits2_pos million64)) with 53.
  rewrite fexp64_normal by lia.
  replace (Z.min (53 + ex - (53 + -33) - 53) (ex - -33)) with (ex - 20) by lia.
  replace (ex - -33 - (ex - 20)) with 53 by lia.
  rewrite Z.shiftl_mul_pow2 by lia.
  unfold Z.div, Z.modulo.
  destruct (Z.div_eucl (Z.pos mx * 2 ^ 53) (Z.pos million64)) as [q r].
  reflexivity.
Qed.

Lemma divide_million_core (p : positive) :
  Z.pos p < 2 ^ 30 ->
  exists m e,
    divide (Z.pos p) 1000000 = S754_finite false m e
    /\ -72 <= e <= -41
    /\ - (1000000 * 2 ^ 30)
       <= Z.pos m * 2 ^ (e + 72) * 1000000 - Z.pos p * 2 ^ 72
       <= 1000000 * 2 ^ 30
    /\ (Z.pos p mod 1000000 = 0 ->
        Z.pos m * 2 ^ (e + 72) * 1000000 = Z.pos p * 2 ^ 72).
Proof.
  intros Hp.
  destruct (binary64_small p) as (mx & L & Hx & HL & Hn & Hmx & Hdx); [lia|].
  assert (HL30 : L <= 30).
  { destruct (Z_le_gt_dec L 30) as [|Hgt]; [assumption|].
    assert (2 ^ 30 <= 2 ^ (L - 1)) by (apply Z.pow_le_mono_r; lia). lia. }
  pose proof (digits2_bounds mx) as Hmxb. rewrite Hdx in Hmxb.
  set (A := 2 ^ (L - 1)). set (B := 2 ^ (73 - L)).
  assert (HA : 1 <= A <= 2 ^ 29).
  { unfold A. split.
    - change 1 with (2 ^ 0). apply Z.pow_le_mono_r; lia.
    - apply Z.pow_le_mono_r; lia. }
  assert (HAB : A * B = 2 ^ 72)
    by (unfold A, B; rewrite <- Z.pow_add_r by lia; f_equal; lia).
  assert (Hnum : Z.pos mx * 2 ^ 53 = Z.pos p * B * 2 ^ 33).
  { rewrite Hmx. unfold B.
    replace (73 - L) with ((53 - L) + 20) by lia.
    rewrite Z.pow_add_r by lia. change (2 ^ 53) with (2 ^ 20 * 2 ^ 33). ring. }
  unfold divide. rewrite Hx, binary64_million. cbn [SFdiv xorb].
  rewrite div_core_million by (assumption || lia).
  set (Q0 := Z.pos mx * 2 ^ 53 / Z.pos million64).
  set (R := (Z.pos mx * 2 ^ 53) mod Z.pos million64).
  set (lz := new_location _ R).
  assert (Hdiv : Z.pos mx * 2 ^ 53 = Z.pos million64 * Q0 + R)
    by (apply Z.div_mod; discriminate).
  assert (HR : 0 <= R < Z.pos million64)
    by (apply Z.mod_pos_bound; reflexivity).
  assert (HQ : 2 ^ 52 <= Q0 < 2 ^ 54).
  { unfold million64 in *. split.
    - apply Z.div_le_lower_bound; [reflexivity|]. lia.
    - apply Z.div_lt_upper_bound; [reflexivity|]. lia. }
  destruct Q0 as [|q|q] eqn:EQ; try lia.
  destruct (round_near q (L - 53 - 20) lz) as (m & k & Hr & Hk & Hnear & Hex);
    [lia | lia |].
  exists m, (L - 53 - 20 + k). split; [exact Hr|]. split; [lia|].
  assert (Hpow : 2 ^ (L - 53 - 20 + k + 72) = A * 2 ^ k).
  { unfold A. rewrite <- Z.pow_add_r by lia. f_equal. lia. }
  rewrite Hpow.
  set (M := Z.pos m * 2 ^ k) in *.
  set (X := Z.pos p * B) in *.
  assert (HX : 1000000 * Z.pos q <= X < 1000000 * (Z.pos q + 1))
    by (unfold million64 in *; lia).
  replace (Z.pos m * (A * 2 ^ k) * 1000000 - Z.pos p * 2 ^ 72)
    with (A * (M * 1000000 - X))
    by (unfold M, X; rewrite <- HAB; ring).
  split.
  - assert (- (2 * 1000000) <= M * 1000000 - X <= 2 * 1000000) by lia.
    nia.
  - intros Hmod.
    assert (Hj : Z.pos p = 1000000 * (Z.pos p / 1000000)).
    { pose proof (Z.div_mod (Z.pos p) 1000000 ltac:(lia)). lia. }
    set (j := Z.pos p / 1000000) in *.
    assert (Hnum' : Z.pos mx * 2 ^ 53 = (j * B) * Z.pos million64).
    { rewrite Hnum. unfold X. rewrite Hj. unfold million64. ring. }
    assert (HQj : Z.pos q = j * B).
    { rewrite <- EQ. unfold Q0 at 1. rewrite Hnum'.
      apply Z.div_mul. discriminate. }
    assert (HR0 : R = 0).
    { unfold R. rewrite Hnum'. apply Z.mod_mul. discriminate. }
    assert (Hlz : lz = loc_Exact) by (unfold lz; rewrite HR0; reflexivity).
    assert (Hev : Z.even (Z.pos q) = true).
    { rewrite HQj, Z.even_mul. unfold B.
      rewrite Z.even_pow by lia. apply orb_true_r. }
    specialize (Hex Hlz Hev). fold M in Hex.
    replace (Z.pos m * (A * 2 ^ k) * 1000000) with (A * (M * 1000000))
      by (unfold M; ring).
    rewrite Hex, HQj, <- HAB, Hj. ring.
Qed.

Lemma scaled_value (m : positive) (e : Z) :
  -72 <= e <= 0 ->
  (inject_Z (Z.pos m) * Qpower 2 e
   == (Z.pos m * 2 ^ (e + 72)) # 4722366482869645213696)%Q.
Proof.
  intros He.
  replace e with ((e + 72) + (-72)) at 1 by lia.
  rewrite Qpower_plus by discriminate.
  rewrite <- (Zpower_Qpower 2 (e + 72)) by lia.
  change (Qpower 2 (-72)) with (1 # 4722366482869645213696)%Q.
  unfold Qeq, Qmult, inject_Z. cbn [Qnum Qden]. lia.
Qed.

Lemma divide_million_value (n : Z) :
  0 <= n < 1000000000 ->
  exists q,
    binary64Value (divide n 1000000) = Some q
    /\ (0 <= q)%Q
    /\ ((n # 1000000) - (1 # 4398046511104) <= q)%Q
    /\ (q <= (n # 1000000) + (1 # 4398046511104))%Q
    /\ (n mod 1000000 = 0 -> q == n # 1000000).
Proof.
  intros Hn. destruct n as [|p|p]; try lia.
  - exists 0%Q. split; [reflexivity|]. repeat split; discriminate.
  - destruct (divide_million_core p) as (m & e & -> & He & Hnear & Hex);
      [lia|].
    eexists. split; [reflexivity|].
    pose proof (scaled_value m e ltac:(lia)) as Hv.
    set (V := Z.pos m * 2 ^ (e + 72)) in *.
    assert (HV : 0 <= V) by (unfold V; apply Z.mul_nonneg_nonneg; [|apply Z.pow_nonneg]; lia).
    rewrite Hv. unfold Qle, Qeq, Qminus, Qplus, Qopp. cbn [Qnum Qden].
    change (2 ^ 72) with 4722366482869645213696 in *.
    change (2 ^ 30) with 1073741824 in *.
    repeat split; lia.
Qed.

Lemma millis_spec (n : Z) :
  0 <= n < 1000000000 ->
  exists q,
    binary64Value (divide n 1000000) = Some q
    /\ (0 <= q)%Q
    /\ (q < 1000)%Q
    /\ ((n # 1000000) - (1 # 4398046511104) <= q)%Q
    /\ (q <= (n # 1000000) + (1 # 4398046511104))%Q
    /\ (whole (divide n 1000000) <-> n mod 1000000 = 0).
Proof.
  intros Hn.
  destruct (divide_million_value n Hn) as (q & Hq & H0 & Hlo & Hhi & Hex).
  exists q. split; [exact Hq|]. split; [exact H0|].
  split; [|split; [exact Hlo|split; [exact Hhi|]]].
  - apply Qle_lt_trans with (1 := Hhi).
    unfold Qlt, Qplus. cbn [Qnum Qden]. lia.
  - split.
    + intros (q' & k & Hq' & Hk). rewrite Hq in Hq'. injection Hq' as <-.
      rewrite Hk in Hlo, Hhi.
      unfold Qle, Qminus, Qplus, Qopp, inject_Z in Hlo, Hhi.
      cbn [Qnum Qden] in Hlo, Hhi.
      assert (n = k * 1000000) as -> by lia.
      apply Z_mod_mult.
    + intros Hmod. exists q, (n / 1000000). split; [exact Hq|].
      rewrite (Hex Hmod). unfold Qeq, inject_Z. cbn [Qnum Qden].
      pose proof (Z.div_mod n 1000000 ltac:(lia)). lia.
Qed.

(** ** The host header *)

Lemma should_log_iff (req : Request) :
  SHOULD_LOG_EXECUTION_TIME req = false <-> host req = Some "cloudfunctions.net".
Proof.
  unfold SHOULD_LOG_EXECUTION_TIME. destruct (host req) as [h|].
  - destruct (String.eqb_spec h "cloudfunctions.net") as [->|Hne]; simpl.
    + split; reflexivity.
    + split; [discriminate | intros [= ->]; contradiction].
  - split; discriminate.
Qed.


(** ** The execution-time log *)

(** C1, as stated, fails: a handler that settles after 1.5 ms has 1.5 passed to
    the finished log, which is not the elapsed time truncated to whole
    milliseconds (1) and not a whole number at all. *)
Lemma finished_log_keeps_fraction_at_1500us :
  exists ms q,
    finishedCalls
      (eventsOf (executeHandler Samples.halfway Samples.getRoot freshResponse)
                Samples.world0)
    = [(ms, 201)]
    /\ binary64Value ms = Some q
    /\ q == 3 # 2
    /\ ~ q == inject_Z (1500000 / 1000000)
    /\ ~ whole ms.
Proof.
  do 2 eexists. split; [vm_compute; reflexivity|].
  split; [reflexivity|]. split; [vm_compute; reflexivity|]. split.
  - vm_compute. discriminate.
  - intros (q & k & Hq & Hk). vm_compute in Hq. injection Hq as <-.
    unfold Qeq in Hk; simpl in Hk. lia.
Qed.

(** C1, amended: with timing enabled, after a handler that settles
    successfully in less than a second, the finished log receives the elapsed
    time in milliseconds with its fraction kept: the binary64 quotient of the
    elapsed nanoseconds by 1,000,000, within [2^-42] of the exact quotient
    and whole only when the nanoseconds are a multiple of 1,000,000, together
    with the status code the response has then. *)
Theorem finished_log_elapsed_fraction (handler : RequestHandler)
    (req : Request) (res : Response) (w : World) :
  SHOULD_LOG_EXECUTION_TIME req = true ->
  outcome (handler req res) = Fulfilled ->
  (elapsed (handler req res) < 1000000000)%N ->
  let ns := Z.of_N (elapsed (handler req res)) in
  exists ms q,
    eventsOf (executeHandler handler req res) w
    = [LogExecutionStarted; HandlerCalled res;
       LogExecutionFinished ms (statusCode (resAfter (handler req res)))]
    /\ ms = divide ns 1000000
    /\ binary64Value ms = Some q
    /\ ((ns # 1000000) - (1 # 4398046511104) <= q)%Q
    /\ (q <= (ns # 1000000) + (1 # 4398046511104))%Q
    /\ (whole ms <-> ns mod 1000000 = 0).
Proof.
  intros Hlog Hok Hlt ns.
  rewrite executeHandler_events. unfold executorEvents.
  rewrite Hlog, Hok.
  assert (Hmod : Z.of_N (elapsed (handler req res)) mod Hrtime.NS_PER_SEC
                 = ns)
    by (apply Z.mod_small; unfold Hrtime.NS_PER_SEC; lia).
  rewrite Hmod.
  destruct (millis_spec ns) as (q & Hq & _ & _ & Hlo & Hhi & Hw);
    [unfold ns; lia|].
  exists (divide ns 1000000), q. repeat split; try assumption.
  - apply Hw.
  - apply Hw.
Qed.

Lemma finished_log_elapsed_fraction_witness :
  let ns := Z.of_N (elapsed (Samples.halfway Samples.getRoot freshResponse)) in
  exists ms q,
    eventsOf (executeHandler Samples.halfway Samples.getRoot freshResponse)
             Samples.world0
    = [LogExecutionStarted; HandlerCalled freshResponse;
       LogExecutionFinished ms
         (statusCode
            (resAfter (Samples.halfway Samples.getRoot freshResponse)))]
    /\ ms = divide ns 1000000
    /\ binary64Value ms = Some q
    /\ ((ns # 1000000) - (1 # 4398046511104) <= q)%Q
    /\ (q <= (ns # 1000000) + (1 # 4398046511104))%Q
    /\ (whole ms <-> ns mod 1000000 = 0).
Proof.
  apply (finished_log_elapsed_fraction Samples.halfway Samples.getRoot
           freshResponse Samples.world0);
    [reflexivity | reflexivity | vm_compute; reflexivity].
Defined.

(** C9: with timing enabled the value passed to the finished log is the
    binary64 quotient of the nanosecond part of the timer difference by
    1,000,000, whatever number of whole seconds went by: it is within
    [2^-42] of the exact quotient, below 1000, and a whole number only when
    that nanosecond part is a multiple of 1,000,000. *)
Theorem finished_log_drops_seconds (handler : RequestHandler)
    (req : Request) (res : Response) (w : World) (secs nanos : N) :
  SHOULD_LOG_EXECUTION_TIME req = true ->
  outcome (handler req res) = Fulfilled ->
  (nanos < 1000000000)%N ->
  elapsed (handler req res) = (secs * 1000000000 + nanos)%N ->
  exists ms q,
    finishedCalls (eventsOf (executeHandler handler req res) w)
    = [(ms, statusCode (resAfter (handler req res)))]
    /\ ms = divide (Z.of_N nanos) 1000000
    /\ binary64Value ms = Some q
    /\ ((Z.of_N nanos # 1000000) - (1 # 4398046511104) <= q)%Q
    /\ (q <= (Z.of_N nanos # 1000000) + (1 # 4398046511104))%Q
    /\ (q < 1000)%Q
    /\ (whole ms <-> (nanos mod 1000000 = 0)%N).
Proof.
  intros Hlog Hok Hns Hel.
  rewrite executeHandler_events. unfold executorEvents.
  rewrite Hlog, Hok, Hel.
  assert (Hmod : Z.of_N (secs * 1000000000 + nanos) mod Hrtime.NS_PER_SEC
                 = Z.of_N nanos).
  { unfold Hrtime.NS_PER_SEC.
    rewrite N2Z.inj_add, N2Z.inj_mul. simpl Z.of_N at 2.
    rewrite Z.add_comm, Z_mod_plus_full. apply Z.mod_small. lia. }
  rewrite Hmod.
  destruct (millis_spec (Z.of_N nanos)) as (q & Hq & _ & Hlt & Hlo & Hhi & Hw);
    [lia|].
  exists (divide (Z.of_N nanos) 1000000), q.
  split; [reflexivity|]. split; [reflexivity|]. split; [exact Hq|].
  split; [exact Hlo|]. split; [exact Hhi|]. split; [exact Hlt|].
  rewrite Hw. change 1000000 with (Z.of_N 1000000).
  rewrite <- N2Z.inj_mod. lia.
Qed.

Lemma finished_log_drops_seconds_witness :
  exists ms q,
    finishedCalls
      (eventsOf (executeHandler Samples.lengthy Samples.getRoot freshResponse)
                Samples.world0)
    = [(ms, statusCode
              (resAfter (Samples.lengthy Samples.getRoot freshResponse)))]
    /\ ms = divide (Z.of_N 500500000) 1000000
    /\ binary64Value ms = Some q
    /\ ((Z.of_N 500500000 # 1000000) - (1 # 4398046511104) <= q)%Q
    /\ (q <= (Z.of_N 500500000 # 1000000) + (1 # 4398046511104))%Q
    /\ (q < 1000)%Q
    /\ (whole ms <-> (500500000 mod 1000000 = 0)%N).
Proof.
  apply (finished_log_drops_seconds Samples.lengthy Samples.getRoot
           freshResponse Samples.world0 2 500500000);
    [reflexivity | reflexivity | vm_compute; reflexivity | reflexivity].
Defined.



(** ** Counting calls *)

Lemma count_app (p : Event -> bool) (l l' : list Event) :
  count p (l ++ l') = (count p l + count p l')%nat.
Proof.
  unfold count. rewrite filter_app, length_app. reflexivity.
Qed.

Lemma executorEvents_handler_once (handler : RequestHandler) (req : Request)
    (res : Response) :
  count isHandlerCalled (executorEvents handler req res) = 1%nat.
Proof.
  unfold executorEvents.
  destruct (SHOULD_LOG_EXECUTION_TIME req);
    [destruct (outcome (handler req res))|]; reflexivity.
Qed.

Lemma executorEvents_no_construction (handler : RequestHandler)
    (req : Request) (res : Response) :
  count isConstruction (executorEvents handler req res) = 0%nat.
Proof.
  unfold executorEvents.
  destruct (SHOULD_LOG_EXECUTION_TIME req);
    [destruct (outcome (handler req res))|]; reflexivity.
Qed.

Lemma executorEvents_timing (handler : RequestHandler) (req : Request)
    (res : Response) :
  filter isTimingLog (executorEvents handler req res) = []
  <-> host req = Some "cloudfunctions.net".
Proof.
  rewrite <- should_log_iff. unfold executorEvents.
  destruct (SHOULD_LOG_EXECUTION_TIME req).
  - split; discriminate.
  - split; reflexivity.
Qed.

Lemma preamble_no_timing (t : SignatureType) :
  filter isTimingLog (preamble t) = [].
Proof.
  destruct t; reflexivity.
Qed.

Lemma isPOST_iff (m : Method) : Express.isPOST m = true <-> m = POST.
Proof.
  destruct m; simpl; split; congruence.
Qed.

Lemma executorEvents_handler_split (handler : RequestHandler) (req : Request)
    (res r : Response) (before after : list Event) :
  executorEvents handler req res = before ++ HandlerCalled r :: after ->
  r = res.
Proof.
  unfold executorEvents.
  destruct (SHOULD_LOG_EXECUTION_TIME req);
    [destruct (outcome (handler req res))|]; simpl; intros H.
  all: destruct before as [|b0 before]; simpl in H; try discriminate H.
  all: try (injection H as H _; congruence).
  all: injection H as _ H.
  all: destruct before as [|b1 before]; simpl in H; try discriminate H.
  all: try (injection H as H _; congruence).
  all: injection H as _ H.
  all: destruct before as [|b2 before]; simpl in H; try discriminate H.
  all: injection H as _ H.
  all: destruct before; discriminate H.
Qed.

(** ** Requests through the registered routes *)

Lemma runDetached_run (handler : RequestHandler) (req : Request)
    (res : Response) (w : World) :
  let s := handler req res in
  Router.runDetached handler req res w
  = ((resAfter s,
      match calledNext s with
      | Some err => Express.Next err
      | None => Express.Ended
      end),
     mkWorld (now w + Z.of_N (elapsed s))
       (trace w ++ executorEvents handler req res)
       (unhandledRejections w ++ rejections (outcome s))).
Proof.
  intros s. unfold Router.runDetached.
  unfold bind at 1. rewrite executeHandler_run. fold s.
  unfold bind, ret, Router.floating. cbn [fst snd].
  destruct (outcome s); cbn [settled rejections now trace unhandledRejections];
    rewrite ?app_nil_r; reflexivity.
Qed.

Section RegisteredRoutes.

Context {T : Express.Matching}.
Variable HandlerFunction : Type.
Variable makeHttpHandler : HandlerFunction -> RequestHandler.
Variable wrapEventFunction : HandlerFunction -> HandlerFunction.
Variable wrapCloudEventFunction : HandlerFunction -> HandlerFunction.
Variable userFunction : HandlerFunction.

Local Notation routes :=
  (Router.registerFunctionRoutes HandlerFunction makeHttpHandler
     wrapEventFunction wrapCloudEventFunction [] userFunction).

Local Notation normalized :=
  (Router.normalizedHandler HandlerFunction makeHttpHandler wrapEventFunction
     wrapCloudEventFunction userFunction).

Local Notation registerOn app :=
  (Router.registerFunctionRoutes HandlerFunction makeHttpHandler
     wrapEventFunction wrapCloudEventFunction app userFunction).

Lemma handleRequest_reaching (t : SignatureType) (req : Request)
    (res : Response) (w : World) :
  reachesHandler t req = true ->
  let s := normalized t req (tracked t res) in
  Express.handleRequest (routes t) req res w
  = ((resAfter s, finalOf (calledNext s)),
     mkWorld (now w + Z.of_N (elapsed s))
       (trace w ++ preamble t ++ executorEvents (normalized t) req
                                   (tracked t res))
       (unhandledRejections w ++ rejections (outcome s))).
Proof.
  intros Hreach s. subst s.
  destruct t; cbn [reachesHandler] in Hreach;
    apply andb_true_iff in Hreach as [H1 H2];
    try apply negb_true_iff in H1;
    try pose proof (Express.catch_all_mounts _ H2) as H3;
    enter_routes;
    rewrite ?H1, ?H2, ?H3; cbn [andb];
    cbn [Router.normalizedHandler tracked preamble];
    step_route; rewrite runDetached_run; simpl fst; simpl snd;
    match goal with
    | |- context [calledNext ?x] => destruct (calledNext x) as [[e|]|]
    end; simpl; rewrite <- !app_assoc; reflexivity.
Qed.

Lemma handleRequest_ignored (req : Request) (res : Response) (w : World) :
  Express.pathMatches Express.use "/favicon.ico|/robots.txt" (path req)
  = true ->
  Express.handleRequest (routes HTTP) req res w
  = ((mkResponse 404 (Some EmptyString) (functionExecutionFinished res)
        (finishListeners res), Express.Stopped),
     mkWorld (now w) (trace w ++ [Sent 404 EmptyString])
       (unhandledRejections w)).
Proof.
  intros Hfav. enter_routes. rewrite Hfav. reflexivity.
Qed.

Lemma handleRequest_tracked_only (req : Request) (res : Response)
    (w : World) :
  Express.pathMatches Express.use "/favicon.ico|/robots.txt" (path req)
  = false ->
  Express.pathMatches Express.use "/*" (path req) = true ->
  Express.pathMatches Express.all "/*" (path req) = false ->
  Express.handleRequest (routes HTTP) req res w
  = ((tracked HTTP res, Express.FellThrough),
     mkWorld (now w) (trace w ++ [OnFinished; NextCalled])
       (unhandledRejections w)).
Proof.
  intros Hfav Huse Hall. enter_routes. rewrite Hfav, Huse, Hall.
  step_route. rewrite <- app_assoc. reflexivity.
Qed.

Lemma handleRequest_unmatched (t : SignatureType) (req : Request)
    (res : Response) (w : World) :
  reachesHandler t req = false ->
  (t = HTTP ->
   Express.pathMatches Express.use "/favicon.ico|/robots.txt" (path req)
   = false
   /\ Express.pathMatches Express.use "/*" (path req) = false) ->
  Express.handleRequest (routes t) req res w = ((res, Express.FellThrough), w).
Proof.
  intros Hreach Hhttp.
  destruct t; cbn [reachesHandler] in Hreach; enter_routes.
  - destruct (Hhttp eq_refl) as [Hfav Huse]. rewrite Hfav, Huse in *.
    cbn [negb andb] in Hreach. rewrite Hreach. reflexivity.
  - rewrite Hreach. reflexivity.
  - rewrite Hreach. reflexivity.
Qed.

(** The four ways a request goes through the routes, in one equation for
    each part of the world. *)
Lemma handleRequest_cases (t : SignatureType) (req : Request)
    (res : Response) (w : World) :
  trace (snd (Express.handleRequest (routes t) req res w))
  = trace w ++ routeEvents t (normalized t) req res
  /\ unhandledRejections (snd (Express.handleRequest (routes t) req res w))
     = unhandledRejections w
       ++ (if reachesHandler t req
           then rejections (outcome (normalized t req (tracked t res)))
           else []).
Proof.
  unfold routeEvents.
  destruct (reachesHandler t req) eqn:Hreach.
  - rewrite handleRequest_reaching by assumption. split; reflexivity.
  - rewrite !app_nil_r.
    assert (Hother : t <> HTTP ->
              Express.handleRequest (routes t) req res w
              = ((res, Express.FellThrough), w))
      by (intros Hne; apply handleRequest_unmatched;
          [assumption | intros ->; contradiction]).
    destruct t.
    + destruct (Express.pathMatches Express.use "/favicon.ico|/robots.txt"
                  (path req)) eqn:Hfav.
      * rewrite handleRequest_ignored by assumption. split; reflexivity.
      * destruct (Express.pathMatches Express.use "/*" (path req)) eqn:Huse.
        -- cbn [reachesHandler] in Hreach. rewrite Hfav in Hreach.
           cbn [negb andb] in Hreach.
           rewrite handleRequest_tracked_only by assumption.
           split; reflexivity.
        -- rewrite handleRequest_unmatched by auto.
           simpl. rewrite app_nil_r. split; reflexivity.
    + rewrite Hother by discriminate.
      simpl. rewrite app_nil_r. split; reflexivity.
    + rewrite Hother by discriminate.
      simpl. rewrite app_nil_r. split; reflexivity.
Qed.

Lemma handleRequest_trace (t : SignatureType) (req : Request)
    (res : Response) (w : World) :
  trace (snd (Express.handleRequest (routes t) req res w))
  = trace w ++ routeEvents t (normalized t) req res.
Proof.
  apply handleRequest_cases.
Qed.

Lemma handleRequest_events (t : SignatureType) (req : Request)
    (res : Response) (w : World) :
  eventsOf (Express.handleRequest (routes t) req res) w
  = routeEvents t (normalized t) req res.
Proof.
  unfold eventsOf. rewrite handleRequest_trace. apply skipn_length_app.
Qed.

(** A handler's rejection on a route: the request ends there, or goes where
    the handler itself sent it with [next], and the rejection is left
    unhandled. *)
Lemma route_leaves_rejection_unhandled (t : SignatureType) (req : Request)
    (res : Response) (w : World) (e : Error) :
  reachesHandler t req = true ->
  outcome (normalized t req (tracked t res)) = Rejected e ->
  snd (fst (Express.handleRequest (routes t) req res w))
  = finalOf (calledNext (normalized t req (tracked t res)))
  /\ unhandledRejections (snd (Express.handleRequest (routes t) req res w))
     = unhandledRejections w ++ [e].
Proof.
  intros Hreach Hrej.
  rewrite handleRequest_reaching by assumption.
  cbn [fst snd unhandledRejections]. rewrite Hrej. split; reflexivity.
Qed.

(** Once the tracker has run, the end of the response sets the flag. *)
Lemma tracked_response_finishes (res : Response) :
  functionExecutionFinished (responseFinished (tracked HTTP res)) = true.
Proof.
  reflexivity.
Qed.

(** ** The host rule *)

(** C4: whatever the signature type, a run of the executor makes no started
    and no finished log call exactly when the host header is the literal
    [cloudfunctions.net]; a request with any other value, or with none, is
    timed.  The same holds of every request that a route hands to the
    executor. *)
Theorem timing_suppressed_iff_literal_host (t : SignatureType)
    (req : Request) (res : Response) (w : World) :
  (filter isTimingLog (eventsOf (executeHandler (normalized t) req res) w) = []
   <-> host req = Some "cloudfunctions.net")
  /\ (reachesHandler t req = true ->
      (filter isTimingLog
         (eventsOf (Express.handleRequest (routes t) req res) w) = []
       <-> host req = Some "cloudfunctions.net")).
Proof.
  split.
  - rewrite executeHandler_events. apply executorEvents_timing.
  - intros Hreach. rewrite handleRequest_events. unfold routeEvents.
    rewrite Hreach, filter_app, preamble_no_timing. simpl.
    apply executorEvents_timing.
Qed.

(** ** The routes of each signature type *)

(** C5: a request for [/favicon.ico] or [/robots.txt] is answered with status
    404 and an empty body by a layer that ends the request before any handler
    is called exactly when the signature type is HTTP, and only the HTTP
    routes contain a layer for these paths. *)
Theorem ignored_paths_404_iff_http (t : SignatureType) (m : Method)
    (p : string) (h : option string) (w : World) :
  p = "/favicon.ico" \/ p = "/robots.txt" ->
  let req := mkRequest m p h in
  let r := Express.handleRequest (routes t) req freshResponse w in
  ((statusCode (fst (fst r)) = 404
    /\ body (fst (fst r)) = Some EmptyString
    /\ snd (fst r) = Express.Stopped
    /\ count isHandlerCalled
         (eventsOf (Express.handleRequest (routes t) req freshResponse) w)
       = 0%nat)
   <-> t = HTTP)
  /\ ((exists l, In l (routes t)
                 /\ Express.route l = "/favicon.ico|/robots.txt")
      <-> t = HTTP).
Proof.
  intros Hp req r.
  assert (Hfav : Express.pathMatches Express.use "/favicon.ico|/robots.txt"
                   (path req) = true)
    by (apply Express.ignored_paths_match; exact Hp).
  split; split.
  - intros (Hst & Hbody & Hfin & Hcnt).
    destruct t as [| |] eqn:Et; [reflexivity | exfalso | exfalso];
      (match type of Hcnt with
       | context [routes ?t'] => destruct (reachesHandler t' req) eqn:Hreach
       end;
       [ rewrite handleRequest_events in Hcnt; unfold routeEvents in Hcnt;
         rewrite Hreach in Hcnt;
         rewrite count_app, executorEvents_handler_once in Hcnt;
         simpl in Hcnt; discriminate
       | subst r;
         rewrite handleRequest_unmatched in Hbody
           by (assumption || discriminate);
         discriminate ]).
  - intros ->. subst r.
    rewrite handleRequest_events, handleRequest_ignored by assumption.
    unfold routeEvents. cbn [reachesHandler]. rewrite Hfav.
    repeat split.
  - intros (l & Hin & Hroute).
    destruct t; [reflexivity | exfalso | exfalso];
      simpl in Hin; destruct Hin as [<-|[]]; discriminate.
  - intros ->. eexists. split; [left; reflexivity | reflexivity].
Qed.

(** C6: the HTTP routes are, in order, the layer for the ignored paths, the
    tracker and the catch-all; the tracker attaches the finish listener and
    calls [next()]; and in every request the handler is called only after
    the listener was attached, with the response that carries it. *)
Theorem tracker_attached_before_handler :
  (exists ignored tracker catchAll,
     (forall app, registerOn app HTTP = app ++ [ignored; tracker; catchAll])
     /\ (Express.verb tracker, Express.route tracker) = (Express.use, "/*")
     /\ (Express.verb catchAll, Express.route catchAll) = (Express.all, "/*")
     /\ forall req res w,
          Express.handle tracker req res w
          = ((tracked HTTP res, Express.Next None),
             mkWorld (now w) (trace w ++ [OnFinished; NextCalled])
               (unhandledRejections w)))
  /\ (forall req res w before r after,
        eventsOf (Express.handleRequest (routes HTTP) req res) w
        = before ++ HandlerCalled r :: after ->
        In OnFinished before
        /\ finishListeners r = S (finishListeners res))
  /\ (forall req res w,
        reachesHandler HTTP req = true ->
        exists after,
          eventsOf (Express.handleRequest (routes HTTP) req res) w
          = [OnFinished; NextCalled; MakeHttpHandler] ++ after
          /\ count isHandlerCalled after = 1%nat).
Proof.
  split; [|split].
  - do 3 eexists. split.
    { intros app. unfold Router.registerFunctionRoutes, Express.register.
      rewrite <- !app_assoc. reflexivity. }
    split; [reflexivity|]. split; [reflexivity|].
    intros req res w. cbn [Express.handle]. step_route.
    rewrite <- app_assoc. reflexivity.
  - intros req res w before r after.
    rewrite handleRequest_events. unfold routeEvents.
    destruct (reachesHandler HTTP req).
    + cbn [preamble]. intros H.
      destruct before as [|b0 before]; simpl in H; [discriminate H|].
      injection H as <- H. split; [left; reflexivity|].
      destruct before as [|b1 before]; simpl in H; [discriminate H|].
      injection H as _ H.
      destruct before as [|b2 before]; simpl in H; [discriminate H|].
      injection H as _ H.
      apply executorEvents_handler_split in H. subst r. reflexivity.
    + destruct (Express.pathMatches Express.use "/favicon.ico|/robots.txt"
                  (path req));
        [|destruct (Express.pathMatches Express.use "/*" (path req))];
        intros H.
      * destruct before as [|b0 before]; simpl in H; [discriminate H|].
        injection H as _ H. destruct before; discriminate H.
      * destruct before as [|b0 before]; simpl in H; [discriminate H|].
        injection H as _ H.
        destruct before as [|b1 before]; simpl in H; [discriminate H|].
        injection H as _ H. destruct before; discriminate H.
      * destruct before; discriminate H.
  - intros req res w Hreach.
    rewrite handleRequest_events. unfold routeEvents. rewrite Hreach.
    eexists. split; [reflexivity|]. apply executorEvents_handler_once.
Qed.

(** C7: for the EVENT and the CLOUD_EVENT signature type registration adds
    one layer, a catch-all for POST; a request with another method matches no
    layer of these routes and leaves response and world as they were, and a
    POST request has the handler called. *)
Theorem event_routes_one_post_binding (t : SignatureType) :
  t = EVENT \/ t = CLOUD_EVENT ->
  (exists cb,
     forall app, registerOn app t = app ++ [Express.mkLayer Express.post "/*" cb])
  /\ (forall req res w,
        method req <> POST ->
        existsb (fun l => Express.layerMatches l req) (routes t) = false
        /\ Express.handleRequest (routes t) req res w
           = ((res, Express.FellThrough), w))
  /\ (forall req res w,
        method req = POST ->
        Express.pathMatches Express.post "/*" (path req) = true ->
        count isHandlerCalled
          (eventsOf (Express.handleRequest (routes t) req res) w) = 1%nat).
Proof.
  intros Ht. split; [|split].
  - destruct Ht; subst t; eexists; intros app; reflexivity.
  - intros req res w Hm.
    assert (Hpost : Express.isPOST (method req) = false).
    { destruct (Express.isPOST (method req)) eqn:E; [|reflexivity].
      apply isPOST_iff in E. contradiction. }
    split.
    + destruct Ht; subst t; simpl; unfold Express.layerMatches;
        cbn [Express.verb Express.methodMatches]; rewrite Hpost; reflexivity.
    + apply handleRequest_unmatched.
      * destruct Ht; subst t; cbn [reachesHandler]; rewrite Hpost;
          reflexivity.
      * destruct Ht; subst t; discriminate.
  - intros req res w Hm Hpath.
    rewrite handleRequest_events. unfold routeEvents.
    assert (Hreach : reachesHandler t req = true).
    { destruct Ht; subst t; cbn [reachesHandler];
        rewrite Hpath, (proj2 (isPOST_iff _) Hm); reflexivity. }
    rewrite Hreach, count_app, executorEvents_handler_once.
    destruct Ht; subst t; reflexivity.
Qed.

(** ** Handler construction *)

Lemma routeEvents_constructions (t : SignatureType) (handler : RequestHandler)
    (req : Request) (res : Response) :
  count isConstruction (routeEvents t handler req res)
  = if reachesHandler t req then 1%nat else 0%nat.
Proof.
  unfold routeEvents. destruct (reachesHandler t req).
  - rewrite count_app, executorEvents_no_construction.
    destruct t; reflexivity.
  - destruct t; try reflexivity.
    destruct (Express.pathMatches Express.use "/favicon.ico|/robots.txt"
                (path req)); [reflexivity|].
    destruct (Express.pathMatches Express.use "/*" (path req)); reflexivity.
Qed.

Lemma serve_trace (t : SignatureType) (reqs : list Request) (w : World) :
  trace (snd (Router.serve (routes t) reqs w))
  = trace w
    ++ List.concat (map (fun req => routeEvents t (normalized t) req freshResponse)
                   reqs).
Proof.
  revert w. induction reqs as [|req rest IH]; intros w.
  - simpl. rewrite app_nil_r. reflexivity.
  - cbn [Router.serve map List.concat]. unfold bind at 1.
    pose proof (handleRequest_trace t req freshResponse w) as Hone.
    destruct (Express.handleRequest (routes t) req freshResponse w)
      as [r w1].
    unfold bind at 1. specialize (IH w1).
    destruct (Router.serve (routes t) rest w1) as [rs w2].
    simpl in *. rewrite IH, Hone, app_assoc. reflexivity.
Qed.

(** C2, amended: the handler is built inside the route callback, never at
    registration: serving a sequence of requests makes one call of
    [makeHttpHandler] for each request that reaches the catch-all route, and
    each such request is run with the handler built from the registered user
    function. *)
Theorem handler_built_per_request (t : SignatureType)
    (reqs : list Request) (w : World) :
  count isConstruction (eventsOf (Router.serve (routes t) reqs) w)
  = List.length (filter (reachesHandler t) reqs)
  /\ (forall req res,
        reachesHandler t req = true ->
        eventsOf (Express.handleRequest (routes t) req res) w
        = preamble t
          ++ eventsOf (executeHandler (normalized t) req (tracked t res)) w).
Proof.
  split.
  - unfold eventsOf. rewrite serve_trace, skipn_length_app.
    induction reqs as [|req rest IH]; [reflexivity|].
    cbn [map List.concat filter]. rewrite count_app, routeEvents_constructions, IH.
    destruct (reachesHandler t req); reflexivity.
  - intros req res Hreach.
    rewrite handleRequest_events, executeHandler_events.
    unfold routeEvents. rewrite Hreach. reflexivity.
Qed.

End RegisteredRoutes.

(** C2, as stated, fails: registering the HTTP routes builds no handler, and
    two requests to the route build two. *)
Lemma handler_rebuilt_for_second_request :
  count isConstruction
    (eventsOf (Router.serve (T := Samples.matching) (Samples.routes Samples.halfway HTTP) [])
              Samples.world0) = 0%nat
  /\ count isConstruction
       (eventsOf
          (Router.serve (T := Samples.matching) (Samples.routes Samples.halfway HTTP)
             [Samples.getRoot; Samples.getRoot])
          Samples.world0) = 2%nat
  /\ count isConstruction
       (eventsOf
          (Router.serve (T := Samples.matching) (Samples.routes Samples.halfway HTTP)
             [Samples.getRoot; Samples.getRoot])
          Samples.world0) <> 1%nat.
Proof.
  split; [|split]; vm_compute; congruence.
Qed.

(** ** Errors of the handler *)

(** C3, as stated, fails: the error of a rejecting handler does not arrive at
    the transport's error handling; the route ends the request and the
    rejection stays unhandled. *)
Lemma handler_error_misses_error_handling :
  let r := Express.handleRequest (T := Samples.matching) (Samples.routes Samples.failing HTTP)
             Samples.getRoot freshResponse Samples.world0 in
  snd (fst r) = Express.Stopped
  /\ snd (fst r) <> Express.ErrorHandling "boom"
  /\ unhandledRejections (snd r) = ["boom"].
Proof.
  vm_compute. repeat split. discriminate.
Qed.

(** C3, amended: an error thrown or a rejection produced by the handler is
    not caught, wrapped or translated by the executor: it is, unchanged, the
    rejection of the promise the executor returns, and no finished log is
    made.  The route callback that called the executor neither awaits nor
    forwards that promise: the rejection stays unhandled, and the callback
    does not throw and passes nothing to [next] that the handler did not. *)
Theorem handler_error_rejects_executor_promise (handler : RequestHandler)
    (req : Request) (res : Response) (w : World) (e : Error) :
  outcome (handler req res) = Rejected e ->
  fst (fst (executeHandler handler req res w)) = RejectedWith e
  /\ finishedCalls (eventsOf (executeHandler handler req res) w) = []
  /\ unhandledRejections (snd (executeHandler handler req res w))
     = unhandledRejections w
  /\ unhandledRejections (snd (Router.runDetached handler req res w))
     = unhandledRejections w ++ [e]
  /\ snd (fst (Router.runDetached handler req res w))
     = match calledNext (handler req res) with
       | Some err => Express.Next err
       | None => Express.Ended
       end.
Proof.
  intros Hrej.
  rewrite executeHandler_events, runDetached_run, executeHandler_run.
  cbn [fst snd unhandledRejections]. rewrite Hrej.
  repeat split.
  unfold executorEvents. rewrite Hrej.
  destruct (SHOULD_LOG_EXECUTION_TIME req); reflexivity.
Qed.

Lemma handler_error_rejects_executor_promise_witness :
  fst (fst (executeHandler Samples.failing Samples.getRoot freshResponse
              Samples.world0)) = RejectedWith "boom"
  /\ finishedCalls
       (eventsOf (executeHandler Samples.failing Samples.getRoot freshResponse)
                 Samples.world0) = []
  /\ unhandledRejections
       (snd (executeHandler Samples.failing Samples.getRoot freshResponse
               Samples.world0))
     = unhandledRejections Samples.world0
  /\ unhandledRejections
       (snd (Router.runDetached Samples.failing Samples.getRoot freshResponse
               Samples.world0))
     = unhandledRejections Samples.world0 ++ ["boom"]
  /\ snd (fst (Router.runDetached Samples.failing Samples.getRoot
                 freshResponse Samples.world0))
     = match calledNext (Samples.failing Samples.getRoot freshResponse) with
       | Some err => Express.Next err
       | None => Express.Ended
       end.
Proof.
  apply (handler_error_rejects_executor_promise Samples.failing
           Samples.getRoot freshResponse Samples.world0 "boom").
  reflexivity.
Defined.

(** ** The host test *)

(** C10: the host header is compared with the literal as it is, character
    for character: a request is timed exactly when its host is any other
    string (another letter case, a port, a subdomain, blanks around it); its
    run then starts with the started log, and the run of a request whose host
    is the literal makes no log call. *)
Theorem host_test_is_strict_equality (h : string) (m : Method) (p : string)
    (handler : RequestHandler) (res : Response) (w : World) :
  (SHOULD_LOG_EXECUTION_TIME (mkRequest m p (Some h)) = true
   <-> h <> "cloudfunctions.net")
  /\ (h <> "cloudfunctions.net" ->
      exists rest,
        eventsOf (executeHandler handler (mkRequest m p (Some h)) res) w
        = LogExecutionStarted :: HandlerCalled res :: rest)
  /\ (h = "cloudfunctions.net" ->
      eventsOf (executeHandler handler (mkRequest m p (Some h)) res) w
      = [HandlerCalled res]).
Proof.
  assert (Hiff : SHOULD_LOG_EXECUTION_TIME (mkRequest m p (Some h)) = true
                 <-> h <> "cloudfunctions.net").
  { unfold SHOULD_LOG_EXECUTION_TIME. cbn [host].
    destruct (String.eqb_spec h "cloudfunctions.net") as [->|Hne]; simpl.
    - split; [discriminate | intros Hne; contradiction].
    - split; [intros _; exact Hne | reflexivity]. }
  split; [exact Hiff|]. split.
  - intros Hne. rewrite executeHandler_events. unfold executorEvents.
    rewrite (proj2 Hiff Hne). eexists. reflexivity.
  - intros ->. rewrite executeHandler_events. reflexivity.
Qed.

Lemma host_test_is_strict_equality_witness :
  (SHOULD_LOG_EXECUTION_TIME
     (mkRequest GET "/" (Some "cloudfunctions.net:8080")) = true
   /\ exists rest,
        eventsOf
          (executeHandler Samples.halfway
             (mkRequest GET "/" (Some "cloudfunctions.net:8080"))
             freshResponse)
          Samples.world0
        = LogExecutionStarted :: HandlerCalled freshResponse :: rest)
  /\ SHOULD_LOG_EXECUTION_TIME
       (mkRequest GET "/" (Some "CloudFunctions.net")) = true
  /\ SHOULD_LOG_EXECUTION_TIME
       (mkRequest GET "/" (Some "us-central1-demo.cloudfunctions.net")) = true
  /\ SHOULD_LOG_EXECUTION_TIME
       (mkRequest GET "/" (Some " cloudfunctions.net ")) = true
  /\ eventsOf
       (executeHandler Samples.halfway
          (mkRequest GET "/" (Some "cloudfunctions.net")) freshResponse)
       Samples.world0
     = [HandlerCalled freshResponse].
Proof.
  split; [split|split; [|split; [|split]]].
  - apply (host_test_is_strict_equality "cloudfunctions.net:8080" GET "/"
             Samples.halfway freshResponse Samples.world0).
    discriminate.
  - apply (host_test_is_strict_equality "cloudfunctions.net:8080" GET "/"
             Samples.halfway freshResponse Samples.world0).
    discriminate.
  - apply (host_test_is_strict_equality "CloudFunctions.net" GET "/"
             Samples.halfway freshResponse Samples.world0).
    discriminate.
  - apply (host_test_is_strict_equality "us-central1-demo.cloudfunctions.net"
             GET "/" Samples.halfway freshResponse Samples.world0).
    discriminate.
  - apply (host_test_is_strict_equality " cloudfunctions.net " GET "/"
             Samples.halfway freshResponse Samples.world0).
    discriminate.
  - apply (host_test_is_strict_equality "cloudfunctions.net" GET "/"
             Samples.halfway freshResponse Samples.world0).
    reflexivity.
Defined.

(** ** The theorems on routes at the sample inputs *)

Lemma timing_suppressed_iff_literal_host_witness :
  filter isTimingLog
    (eventsOf
       (Express.handleRequest (T := Samples.matching) (Samples.routes Samples.halfway EVENT)
          (mkRequest POST "/" (Some "cloudfunctions.net")) freshResponse)
       Samples.world0) = []
  <-> Some "cloudfunctions.net" = Some "cloudfunctions.net".
Proof.
  apply (timing_suppressed_iff_literal_host RequestHandler (fun f => f)
           (fun f => f) (fun f => f) Samples.halfway EVENT
           (mkRequest POST "/" (Some "cloudfunctions.net")) freshResponse
           Samples.world0).
  reflexivity.
Defined.

Lemma ignored_paths_404_iff_http_witness :
  let req := mkRequest GET "/robots.txt" None in
  let r := Express.handleRequest (T := Samples.matching) (Samples.routes Samples.halfway HTTP) req
             freshResponse Samples.world0 in
  ((statusCode (fst (fst r)) = 404
    /\ body (fst (fst r)) = Some EmptyString
    /\ snd (fst r) = Express.Stopped
    /\ count isHandlerCalled
         (eventsOf
            (Express.handleRequest (T := Samples.matching) (Samples.routes Samples.halfway HTTP) req
               freshResponse)
            Samples.world0)
       = 0%nat)
   <-> HTTP = HTTP)
  /\ ((exists l, In l (Samples.routes Samples.halfway HTTP)
                 /\ Express.route l = "/favicon.ico|/robots.txt")
      <-> HTTP = HTTP).
Proof.
  apply (ignored_paths_404_iff_http RequestHandler (fun f => f) (fun f => f)
           (fun f => f) Samples.halfway HTTP GET "/robots.txt" None
           Samples.world0).
  right. reflexivity.
Defined.

Lemma event_routes_one_post_binding_witness :
  (exists cb,
     forall app,
       Router.registerFunctionRoutes RequestHandler (fun f => f) (fun f => f)
         (fun f => f) app Samples.halfway CLOUD_EVENT
       = app ++ [Express.mkLayer Express.post "/*" cb])
  /\ (forall req res w,
        method req <> POST ->
        existsb (fun l => Express.layerMatches (T := Samples.matching) l req)
          (Samples.routes Samples.halfway CLOUD_EVENT) = false
        /\ Express.handleRequest (T := Samples.matching)
             (Samples.routes Samples.halfway CLOUD_EVENT) req res w
           = ((res, Express.FellThrough), w))
  /\ (forall req res w,
        method req = POST ->
        Express.pathMatches (Matching := Samples.matching) Express.post "/*"
          (path req) = true ->
        count isHandlerCalled
          (eventsOf
             (Express.handleRequest (T := Samples.matching)
                (Samples.routes Samples.halfway CLOUD_EVENT) req res)
             w) = 1%nat).
Proof.
  apply (event_routes_one_post_binding RequestHandler (fun f => f)
           (fun f => f) (fun f => f) Samples.halfway CLOUD_EVENT).
  right. reflexivity.
Defined.

Lemma tracker_attached_before_handler_witness :
  exists after,
    eventsOf
      (Express.handleRequest (T := Samples.matching) (Samples.routes Samples.halfway HTTP)
         Samples.getRoot freshResponse)
      Samples.world0
    = [OnFinished; NextCalled; MakeHttpHandler] ++ after
    /\ count isHandlerCalled after = 1%nat.
Proof.
  apply (tracker_attached_before_handler RequestHandler (fun f => f)
           (fun f => f) (fun f => f) Samples.halfway).
  reflexivity.
Defined.

Lemma handler_built_per_request_witness :
  eventsOf
    (Express.handleRequest (T := Samples.matching) (Samples.routes Samples.halfway EVENT)
       Samples.postRoot freshResponse)
    Samples.world0
  = preamble EVENT
    ++ eventsOf (executeHandler Samples.halfway Samples.postRoot
                   (tracked EVENT freshResponse))
         Samples.world0.
Proof.
  apply (handler_built_per_request RequestHandler (fun f => f) (fun f => f)
           (fun f => f) Samples.halfway EVENT [] Samples.world0).
  reflexivity.
Defined.

(** * Further properties of the router *)

(** ** The executor on every run *)

(** X1: the timing log only observes.  Whatever the host header, a run of
    the executor calls the handler once and makes no other call than the
    log's, its promise settles as the handler did, the clock moves by the
    handler's time, and no rejection is handled or added. *)
Theorem logging_is_observational (handler : RequestHandler) (req : Request)
    (res : Response) (w : World) :
  fst (executeHandler handler req res w)
  = (settled (outcome (handler req res)), handler req res)
  /\ filter (fun e => negb (isTimingLog e))
       (eventsOf (executeHandler handler req res) w)
     = [HandlerCalled res]
  /\ now (snd (executeHandler handler req res w))
     = now w + Z.of_N (elapsed (handler req res))
  /\ unhandledRejections (snd (executeHandler handler req res w))
     = unhandledRejections w.
Proof.
  rewrite executeHandler_events, executeHandler_run.
  cbn [fst snd now unhandledRejections].
  repeat split.
  unfold executorEvents.
  destruct (SHOULD_LOG_EXECUTION_TIME req);
    [destruct (outcome (handler req res))|]; reflexivity.
Qed.

(** X2: a handler that never settles leaves the run open: the started log
    is made when the request is timed, the handler is called, no finished
    log follows, the promise of the executor stays unsettled and the route
    callback reports no rejection. *)
Theorem hung_handler_never_finishes (handler : RequestHandler)
    (req : Request) (res : Response) (w : World) :
  outcome (handler req res) = Pending ->
  fst (fst (executeHandler handler req res w)) = Unsettled
  /\ eventsOf (executeHandler handler req res) w
     = (if SHOULD_LOG_EXECUTION_TIME req then [LogExecutionStarted] else [])
       ++ [HandlerCalled res]
  /\ unhandledRejections (snd (Router.runDetached handler req res w))
     = unhandledRejections w.
Proof.
  intros Hhang.
  rewrite executeHandler_events, runDetached_run, executeHandler_run.
  cbn [fst snd unhandledRejections]. rewrite Hhang.
  split; [reflexivity|]. split.
  - unfold executorEvents. rewrite Hhang.
    destruct (SHOULD_LOG_EXECUTION_TIME req); reflexivity.
  - simpl. apply app_nil_r.
Qed.

Lemma hung_handler_never_finishes_witness :
  fst (fst (executeHandler Samples.hanging Samples.getRoot freshResponse
              Samples.world0)) = Unsettled
  /\ eventsOf (executeHandler Samples.hanging Samples.getRoot freshResponse)
       Samples.world0
     = (if SHOULD_LOG_EXECUTION_TIME Samples.getRoot
        then [LogExecutionStarted] else [])
       ++ [HandlerCalled freshResponse]
  /\ unhandledRejections
       (snd (Router.runDetached Samples.hanging Samples.getRoot freshResponse
               Samples.world0))
     = unhandledRejections Samples.world0.
Proof.
  apply (hung_handler_never_finishes Samples.hanging Samples.getRoot
           freshResponse Samples.world0).
  reflexivity.
Defined.

(** ** Counting over the calls of a run *)

Lemma executorEvents_started (handler : RequestHandler) (req : Request)
    (res : Response) :
  count isStarted (executorEvents handler req res)
  = if SHOULD_LOG_EXECUTION_TIME req then 1%nat else 0%nat.
Proof.
  unfold executorEvents.
  destruct (SHOULD_LOG_EXECUTION_TIME req);
    [destruct (outcome (handler req res))|]; reflexivity.
Qed.

Lemma executorEvents_finished (handler : RequestHandler) (req : Request)
    (res : Response) :
  count isFinished (executorEvents handler req res)
  = if SHOULD_LOG_EXECUTION_TIME req && fulfils (outcome (handler req res))
    then 1%nat else 0%nat.
Proof.
  unfold executorEvents.
  destruct (SHOULD_LOG_EXECUTION_TIME req);
    [destruct (outcome (handler req res))|]; reflexivity.
Qed.

Lemma executorEvents_no_tracker (handler : RequestHandler) (req : Request)
    (res : Response) :
  count isOnFinished (executorEvents handler req res) = 0%nat.
Proof.
  unfold executorEvents.
  destruct (SHOULD_LOG_EXECUTION_TIME req);
    [destruct (outcome (handler req res))|]; reflexivity.
Qed.

Lemma count_concat_indicator {A} (p : Event -> bool) (f : A -> list Event)
    (g : A -> bool) (l : list A) :
  (forall a, count p (f a) = if g a then 1%nat else 0%nat) ->
  count p (List.concat (map f l)) = List.length (filter g l).
Proof.
  intros Hone. induction l as [|a l IH]; [reflexivity|].
  cbn [map List.concat filter]. rewrite count_app, Hone, IH.
  destruct (g a); reflexivity.
Qed.

Lemma filter_and_length_le {A} (g h : A -> bool) (l : list A) :
  (List.length (filter (fun a => g a && h a) l)
   <= List.length (filter g l))%nat.
Proof.
  induction l as [|a l IH]; simpl; [lia|].
  destruct (g a), (h a); simpl; lia.
Qed.

Lemma handleRequest_skips_unmatched {T : Express.Matching}
    (front back : Express.Application) (req : Request) (res : Response)
    (w : World) :
  (forall l, In l front -> Express.layerMatches l req = false) ->
  Express.handleRequest (front ++ back) req res w
  = Express.handleRequest back req res w.
Proof.
  induction front as [|l front IH]; intros Hnone; [reflexivity|].
  cbn [List.app Express.handleRequest].
  rewrite (Hnone l (or_introl eq_refl)).
  apply IH. intros l' Hin. apply Hnone. right. exact Hin.
Qed.

(** ** Requests on the routes of every signature type *)

Section RoutedRequests.

Context {T : Express.Matching}.
Variable HandlerFunction : Type.
Variable makeHttpHandler : HandlerFunction -> RequestHandler.
Variable wrapEventFunction : HandlerFunction -> HandlerFunction.
Variable wrapCloudEventFunction : HandlerFunction -> HandlerFunction.
Variable userFunction : HandlerFunction.

Local Notation routes :=
  (Router.registerFunctionRoutes HandlerFunction makeHttpHandler
     wrapEventFunction wrapCloudEventFunction [] userFunction).

Local Notation normalized :=
  (Router.normalizedHandler HandlerFunction makeHttpHandler wrapEventFunction
     wrapCloudEventFunction userFunction).

Local Notation registerOn app :=
  (Router.registerFunctionRoutes HandlerFunction makeHttpHandler
     wrapEventFunction wrapCloudEventFunction app userFunction).

Local Notation requestEvents t req res w :=
  (eventsOf (Express.handleRequest (routes t) req res) w).

Lemma requestEvents_routeEvents (t : SignatureType) (req : Request)
    (res : Response) (w : World) :
  requestEvents t req res w = routeEvents t (normalized t) req res.
Proof.
  apply handleRequest_events.
Qed.

Lemma handleRequest_unhandled (t : SignatureType) (req : Request)
    (res : Response) (w : World) :
  unhandledRejections (snd (Express.handleRequest (routes t) req res w))
  = unhandledRejections w
    ++ (if reachesHandler t req
        then rejections (outcome (normalized t req (tracked t res)))
        else []).
Proof.
  apply handleRequest_cases.
Qed.

Lemma serve_unhandled (t : SignatureType) (reqs : list Request) (w : World) :
  unhandledRejections (snd (Router.serve (routes t) reqs w))
  = unhandledRejections w ++ rejectionsOf t (normalized t) reqs.
Proof.
  unfold rejectionsOf. revert w.
  induction reqs as [|req rest IH]; intros w.
  - simpl. rewrite app_nil_r. reflexivity.
  - cbn [Router.serve map List.concat]. unfold bind at 1.
    pose proof (handleRequest_unhandled t req freshResponse w) as Hone.
    destruct (Express.handleRequest (routes t) req freshResponse w)
      as [r w1].
    unfold bind at 1. specialize (IH w1).
    destruct (Router.serve (routes t) rest w1) as [rs w2].
    simpl in *. rewrite IH, Hone, app_assoc. reflexivity.
Qed.

(** X3: a request has the user function's handler called at most once: on
    the HTTP routes once, for every method, when the transport takes the
    path for the catch-all route and not for the ignored pattern; on the
    EVENT and CLOUD_EVENT routes once for a POST whose path the catch-all
    takes; and never otherwise. *)
Theorem handler_called_once_when_routed (t : SignatureType) (req : Request)
    (res : Response) (w : World) :
  count isHandlerCalled (requestEvents t req res w)
  = match t with
    | HTTP =>
        if Express.pathMatches Express.use "/favicon.ico|/robots.txt"
             (path req)
        then 0%nat
        else if Express.pathMatches Express.all "/*" (path req)
        then 1%nat else 0%nat
    | _ =>
        if Express.isPOST (method req)
           && Express.pathMatches Express.post "/*" (path req)
        then 1%nat else 0%nat
    end.
Proof.
  rewrite requestEvents_routeEvents. unfold routeEvents.
  destruct t; cbn [reachesHandler].
  - destruct (Express.pathMatches Express.use "/favicon.ico|/robots.txt"
                (path req));
      cbn [negb andb]; [reflexivity|].
    destruct (Express.pathMatches Express.all "/*" (path req)).
    + rewrite count_app, executorEvents_handler_once. reflexivity.
    + destruct (Express.pathMatches Express.use "/*" (path req));
        reflexivity.
  - destruct (Express.isPOST (method req)
              && Express.pathMatches Express.post "/*" (path req));
      [|reflexivity].
    rewrite count_app, executorEvents_handler_once. reflexivity.
  - destruct (Express.isPOST (method req)
              && Express.pathMatches Express.post "/*" (path req));
      [|reflexivity].
    rewrite count_app, executorEvents_handler_once. reflexivity.
Qed.

(** X4: on a request that reaches the handler the router writes nothing to
    the response after the tracker and decides nothing itself: the response
    is the one the handler left, the request goes on to later layers or to
    the error handling only where the handler called [next], the clock
    moves by the handler's time, and a rejection is left unhandled exactly
    when the handler rejected. *)
Theorem router_leaves_response_to_handler (t : SignatureType)
    (req : Request) (res : Response) (w : World) :
  reachesHandler t req = true ->
  let s := normalized t req (tracked t res) in
  let r := Express.handleRequest (routes t) req res w in
  fst (fst r) = resAfter s
  /\ snd (fst r) = finalOf (calledNext s)
  /\ now (snd r) = now w + Z.of_N (elapsed s)
  /\ unhandledRejections (snd r)
     = unhandledRejections w ++ rejections (outcome s).
Proof.
  intros Hreach s r. subst r s.
  rewrite handleRequest_reaching by assumption.
  repeat split.
Qed.

(** X5: the EVENT and CLOUD_EVENT routes never attach the finish listener:
    no request has [onFinished] called, and the handler is called with the
    response as the transport handed it over. *)
Theorem event_routes_never_track (t : SignatureType) (req : Request)
    (res : Response) (w : World) :
  t = EVENT \/ t = CLOUD_EVENT ->
  count isOnFinished (requestEvents t req res w) = 0%nat
  /\ forall before r after,
       requestEvents t req res w = before ++ HandlerCalled r :: after ->
       r = res.
Proof.
  intros Ht. rewrite requestEvents_routeEvents. unfold routeEvents.
  destruct (reachesHandler t req).
  - split.
    + rewrite count_app, executorEvents_no_tracker.
      destruct Ht; subst t; reflexivity.
    + intros before r after H.
      assert (Hpre : exists a, preamble t = [a; MakeHttpHandler]
                               /\ isHandlerCalled a = false)
        by (destruct Ht; subst t; eexists; split; reflexivity).
      destruct Hpre as (a & Hpre & Ha). rewrite Hpre in H. simpl in H.
      destruct before as [|b0 before]; simpl in H.
      { injection H as H _. subst a. discriminate Ha. }
      injection H as _ H.
      destruct before as [|b1 before]; simpl in H; [discriminate H|].
      injection H as _ H.
      apply executorEvents_handler_split in H.
      destruct Ht; subst t; exact H.
  - destruct Ht; subst t; (split; [reflexivity|]);
      intros before r after H; destruct before; discriminate H.
Qed.

(** X6: on the HTTP routes a request whose path matches the ignored pattern
    is answered by one [send] of status 404 with an empty body, whatever its
    method, its host and the state of the response: no timing log, no finish
    listener and no handler are made for it, the status is overwritten, the
    locals are kept, and clock and rejections stay as they were. *)
Theorem ignored_path_only_sends_404 (req : Request) (res : Response)
    (w : World) :
  Express.pathMatches Express.use "/favicon.ico|/robots.txt" (path req)
  = true ->
  let r := Express.handleRequest (routes HTTP) req res w in
  requestEvents HTTP req res w = [Sent 404 EmptyString]
  /\ fst r = (mkResponse 404 (Some EmptyString)
                (functionExecutionFinished res) (finishListeners res),
              Express.Stopped)
  /\ now (snd r) = now w
  /\ unhandledRejections (snd r) = unhandledRejections w.
Proof.
  intros Hfav r. subst r.
  rewrite requestEvents_routeEvents.
  rewrite handleRequest_ignored by assumption.
  unfold routeEvents. cbn [reachesHandler]. rewrite Hfav.
  repeat split.
Qed.

(** X7: over any sequence of requests served by the routes, the started
    logs are as many as the requests that reach the handler with a host
    other than the literal, the finished logs as many as those of them whose
    handler fulfils, so there are never more finished than started logs. *)
Theorem timing_logs_over_requests (t : SignatureType) (reqs : list Request)
    (w : World) :
  let evs := eventsOf (Router.serve (routes t) reqs) w in
  count isStarted evs = List.length (filter (timedRequest t) reqs)
  /\ count isFinished evs
     = List.length (filter (timedAndFulfilled t (normalized t)) reqs)
  /\ (count isFinished evs <= count isStarted evs)%nat.
Proof.
  intros evs.
  assert (Hs : count isStarted evs
               = List.length (filter (timedRequest t) reqs)).
  { subst evs. unfold eventsOf. rewrite serve_trace, skipn_length_app.
    apply count_concat_indicator. intros req.
    unfold routeEvents, timedRequest.
    destruct (reachesHandler t req).
    - rewrite count_app, executorEvents_started. destruct t; reflexivity.
    - destruct t; try reflexivity.
      destruct (Express.pathMatches Express.use "/favicon.ico|/robots.txt"
                (path req)); [reflexivity|].
    destruct (Express.pathMatches Express.use "/*" (path req)); reflexivity. }
  assert (Hf : count isFinished evs
               = List.length
                   (filter (timedAndFulfilled t (normalized t)) reqs)).
  { subst evs. unfold eventsOf. rewrite serve_trace, skipn_length_app.
    apply count_concat_indicator. intros req.
    unfold routeEvents, timedAndFulfilled, timedRequest.
    destruct (reachesHandler t req).
    - rewrite count_app, executorEvents_finished. destruct t; reflexivity.
    - destruct t; try reflexivity.
      destruct (Express.pathMatches Express.use "/favicon.ico|/robots.txt"
                (path req)); [reflexivity|].
    destruct (Express.pathMatches Express.use "/*" (path req)); reflexivity. }
  split; [exact Hs|]. split; [exact Hf|].
  rewrite Hs, Hf. unfold timedAndFulfilled.
  apply filter_and_length_le.
Qed.

(** X8: serving a sequence of requests leaves unhandled, in the order of the
    requests, the rejections of the handlers that were reached, and nothing
    else: an error is unhandled afterwards exactly when it was before or
    some request of the sequence reached a handler that rejected with it. *)
Theorem served_requests_collect_rejections (t : SignatureType)
    (reqs : list Request) (w : World) :
  let after := unhandledRejections (snd (Router.serve (routes t) reqs w)) in
  after = unhandledRejections w ++ rejectionsOf t (normalized t) reqs
  /\ forall e,
       In e after
       <-> In e (unhandledRejections w)
           \/ exists req,
                In req reqs
                /\ reachesHandler t req = true
                /\ outcome (normalized t req (tracked t freshResponse))
                   = Rejected e.
Proof.
  intros after. subst after. rewrite serve_unhandled.
  split; [reflexivity|]. intros e.
  rewrite in_app_iff. unfold rejectionsOf.
  rewrite in_concat. setoid_rewrite in_map_iff.
  split.
  - intros [Hold | (l & (req & <- & Hin) & He)]; [left; exact Hold|].
    right. exists req. split; [exact Hin|].
    destruct (reachesHandler t req); [|contradiction].
    split; [reflexivity|].
    destruct (outcome (normalized t req (tracked t freshResponse)));
      simpl in He; try contradiction.
    destruct He as [->|[]]. reflexivity.
  - intros [Hold | (req & Hin & Hreach & Hrej)]; [left; exact Hold|].
    right. eexists. split; [exists req; split; [reflexivity | exact Hin]|].
    rewrite Hreach, Hrej. left. reflexivity.
Qed.

(** X9: registration only appends: the layers an application already has
    stay in front, in their order, and a request that none of them matches
    is served as on an application that holds the router's layers alone. *)
Theorem registration_appends (t : SignatureType) (app : Express.Application)
    (req : Request) (res : Response) (w : World) :
  registerOn app t = app ++ routes t
  /\ ((forall l, In l app -> Express.layerMatches l req = false) ->
      Express.handleRequest (registerOn app t) req res w
      = Express.handleRequest (routes t) req res w).
Proof.
  assert (Happ : registerOn app t = app ++ routes t).
  { destruct t; unfold Router.registerFunctionRoutes, Express.register;
      cbn [List.app]; rewrite <- ?app_assoc; reflexivity. }
  split; [exact Happ|].
  intros Hnone. rewrite Happ. apply handleRequest_skips_unmatched.
  exact Hnone.
Qed.

End RoutedRequests.

(** ** The further theorems at the sample inputs *)

Lemma router_leaves_response_to_handler_witness :
  let s := Samples.forwarding Samples.postRoot (tracked EVENT freshResponse) in
  let r := Express.handleRequest (T := Samples.matching) (Samples.routes Samples.forwarding EVENT)
             Samples.postRoot freshResponse Samples.world0 in
  fst (fst r) = resAfter s
  /\ snd (fst r) = finalOf (calledNext s)
  /\ now (snd r) = now Samples.world0 + Z.of_N (elapsed s)
  /\ unhandledRejections (snd r)
     = unhandledRejections Samples.world0 ++ rejections (outcome s).
Proof.
  apply (router_leaves_response_to_handler RequestHandler (fun f => f)
           (fun f => f) (fun f => f) Samples.forwarding EVENT
           Samples.postRoot freshResponse Samples.world0).
  reflexivity.
Defined.

Lemma event_routes_never_track_witness :
  count isOnFinished
    (eventsOf
       (Express.handleRequest (T := Samples.matching) (Samples.routes Samples.halfway EVENT)
          Samples.postRoot freshResponse)
       Samples.world0) = 0%nat
  /\ forall before r after,
       eventsOf
         (Express.handleRequest (T := Samples.matching) (Samples.routes Samples.halfway EVENT)
            Samples.postRoot freshResponse)
         Samples.world0
       = before ++ HandlerCalled r :: after ->
       r = freshResponse.
Proof.
  apply (event_routes_never_track RequestHandler (fun f => f) (fun f => f)
           (fun f => f) Samples.halfway EVENT Samples.postRoot freshResponse
           Samples.world0).
  left. reflexivity.
Defined.

Lemma ignored_path_only_sends_404_witness :
  let req := mkRequest POST "/favicon.ico" (Some "localhost:8080") in
  let res := mkResponse 500 None true 2 in
  let r := Express.handleRequest (T := Samples.matching) (Samples.routes Samples.halfway HTTP) req res
             Samples.world0 in
  eventsOf (Express.handleRequest (T := Samples.matching) (Samples.routes Samples.halfway HTTP) req res)
    Samples.world0
  = [Sent 404 EmptyString]
  /\ fst r = (mkResponse 404 (Some EmptyString)
                (functionExecutionFinished res) (finishListeners res),
              Express.Stopped)
  /\ now (snd r) = now Samples.world0
  /\ unhandledRejections (snd r) = unhandledRejections Samples.world0.
Proof.
  apply (ignored_path_only_sends_404 RequestHandler (fun f => f) (fun f => f)
           (fun f => f) Samples.halfway
           (mkRequest POST "/favicon.ico" (Some "localhost:8080"))
           (mkResponse 500 None true 2) Samples.world0).
  reflexivity.
Defined.

Lemma registration_appends_witness :
  Express.handleRequest (T := Samples.matching)
    (Router.registerFunctionRoutes RequestHandler (fun f => f) (fun f => f)
       (fun f => f) [Samples.hook] Samples.halfway HTTP)
    Samples.getRoot freshResponse Samples.world0
  = Express.handleRequest (T := Samples.matching) (Samples.routes Samples.halfway HTTP)
      Samples.getRoot freshResponse Samples.world0.
Proof.
  apply (registration_appends RequestHandler (fun f => f) (fun f => f)
           (fun f => f) Samples.halfway HTTP [Samples.hook] Samples.getRoot
           freshResponse Samples.world0).
  intros l [<-|[]]. reflexivity.
Defined.
